(** * hw_python_oop: the fitness-tracker calculator of [homework.py]

    A shallow embedding of [homework.py] and the properties of its
    specification.

    The program computes with Python numbers.  A Python [int] is an
    unbounded integer, modelled as [Z].  A Python [float] is an IEEE 754
    binary64 number, modelled by the Standard Library's [spec_float] at
    precision 53 and maximal exponent 1024; every operator returns the
    double nearest to its exact result, ties to even.  That is what the
    processor does for [+], [-], [*] and [/], and what CPython does when
    it converts an [int], divides two [int]s, reads a literal and formats
    with [.3f].

    The two other operators of the program go through the C library.
    [x // y] on [float]s is CPython's [float_floor_div], followed
    statement by statement: the remainder [fmod(x, y)], which is exact,
    the quotient [(x - remainder) / y], a correction by one when the
    signs of the remainder and of the divisor differ, and [floor] with a
    snap to the integer above; it is not always the floor of the exact
    quotient.  [x ** 2] on a [float] is CPython's [float_pow]: the
    special cases apart, it is [pow(|x|, 2.0)] of the C library, which
    the standard does not require to be correctly rounded and which
    differs from one platform to the other.  The library is a parameter
    of the program, the class [Libm]; properties are proved for every
    library, and the examples that compute a square are computed with
    the library [correctly_rounded], whose [pow] returns the double
    nearest to the square.

    Faults are Python exceptions, carried by the [result] monad; text
    written by [print] is collected as a list of lines. *)

From Stdlib Require Import ZArith NArith QArith Qround Qabs List String Ascii Bool Lia.
From Stdlib Require Import Floats.SpecFloat Floats.PrimFloat Floats.FloatOps.
From Stdlib Require Import DecimalString.
From stdpp Require Import base option gmap strings.

Local Open Scope Z_scope.

(** ** Exceptions and the [result] monad *)

Inductive exn : Type :=
| KeyError (key : string)
| AttributeError
| TypeError
| NotImplementedError
| ZeroDivisionError
| OverflowError.

Inductive result (A : Type) : Type :=
| Ok (a : A)
| Raise (e : exn).

Arguments Ok {A} a.
Arguments Raise {A} e.

#[global] Instance result_ret : MRet result := fun _ a => Ok a.

#[global] Instance result_bind : MBind result := fun _ _ k m =>
  match m with
  | Ok a => k a
  | Raise e => Raise e
  end.

(** ** Binary64 arithmetic *)

Module Float.

Definition prec : Z := 53.
Definition emax : Z := 1024.

Abbreviation float := spec_float.

Definition zero : float := S754_zero false.
Definition nan : float := S754_nan.

Definition add : float -> float -> float := SFadd prec emax.
Definition sub : float -> float -> float := SFsub prec emax.
Definition mul : float -> float -> float := SFmul prec emax.
Definition div : float -> float -> float := SFdiv prec emax.

(** The double nearest to an integer; an infinity when the integer is
    beyond the largest double. *)
Definition of_Z (z : Z) : float := binary_normalize prec emax z 0 false.

(** The double nearest to the quotient of two integers, the divisor not
    zero.  The sign of a zero quotient is the divisor's. *)
Definition of_quotient (a b : Z) : float :=
  match a with
  | Z0 => S754_zero (b <? 0)
  | _ => div (S754_finite (a <? 0) (Z.to_pos (Z.abs a)) 0)
             (S754_finite (b <? 0) (Z.to_pos (Z.abs b)) 0)
  end.

Definition is_zero (x : float) : bool :=
  match x with S754_zero _ => true | _ => false end.

Definition is_finite (x : float) : bool :=
  match x with S754_zero _ | S754_finite _ _ _ => true | _ => false end.

Definition sign (x : float) : bool :=
  match x with
  | S754_zero s | S754_infinity s | S754_finite s _ _ => s
  | S754_nan => false
  end.

(** [0 <= x] and [0 < x] as Python compares them: a NaN compares false,
    and the negative zero equals zero. *)
Definition nonneg (x : float) : bool := SFleb zero x.
Definition pos (x : float) : bool := SFltb zero x.

(** The exact value of a finite double. *)
Definition to_Q (x : float) : Q :=
  match x with
  | S754_finite s m e =>
      let magnitude :=
        match e with
        | Zneg p => Zpos m # 2 ^ p
        | _ => inject_Z (Zpos m * 2 ^ e)
        end in
      if s then (- magnitude)%Q else magnitude
  | _ => 0%Q
  end.

Definition one : float := of_Z 1.
Definition half : float := of_quotient 1 2.

(** The integer part of a fraction, towards zero. *)
Definition truncate (q : Q) : Z := Z.quot (Qnum q) (Zpos (Qden q)).

(** [fmod(x, y)] of the C library: [x - n * y] for the integer part [n]
    of [x / y], with the sign of [x].  It is a double, so nothing is
    rounded; it is [x] itself when [x] is the smaller in magnitude. *)
Definition fmod (x y : float) : float :=
  match x, y with
  | S754_nan, _ | _, S754_nan | S754_infinity _, _ | _, S754_zero _ => S754_nan
  | S754_zero _, _ | S754_finite _ _ _, S754_infinity _ => x
  | S754_finite sx _ _, S754_finite _ _ _ =>
      match (Qabs (to_Q x) ?= Qabs (to_Q y))%Q with
      | Lt => x
      | _ =>
          let r :=
            (to_Q x - inject_Z (truncate (to_Q x / to_Q y)) * to_Q y)%Q in
          match Qnum r with
          | Z0 => S754_zero sx
          | n => of_quotient n (Zpos (Qden r))
          end
      end
  end.

(** [floor(x)] of the C library: the largest integer not above [x], which
    is a double. *)
Definition floor (x : float) : float :=
  match x with
  | S754_finite s _ _ =>
      match Qfloor (to_Q x) with
      | Z0 => S754_zero s
      | n => of_Z n
      end
  | _ => x
  end.

(** [x // y] on two doubles, the divisor not zero: [_float_div_mod] of
    CPython's [floatobject.c], of which [float_floor_div] returns the
    quotient.

    [mod = fmod(vx, wx); div = (vx - mod) / wx;]
    [if (mod) { if ((wx < 0) != (mod < 0)) { mod += wx; div -= 1.0; } }]
    [if (div) { floordiv = floor(div);]
    [           if (div - floordiv > 0.5) floordiv += 1.0; }]
    [else floordiv = copysign(0.0, vx / wx);]

    A NaN is not zero and compares false. *)
Definition floordiv (x y : float) : float :=
  let remainder := fmod x y in
  let quotient := div (sub x remainder) y in
  let quotient :=
    if negb (is_zero remainder)
       && negb (Bool.eqb (SFltb y zero) (SFltb remainder zero))
    then sub quotient one else quotient in
  if is_zero quotient then S754_zero (sign (div x y))
  else
    let floored := floor quotient in
    if SFltb half (sub quotient floored) then add floored one else floored.

End Float.

Abbreviation float := spec_float.

(** ** The C library *)

(** [pow2 x] is [pow(x, 2.0)] of the platform's C library.  [fmod] and
    [floor] are exact, so every library agrees on them; [pow] is rounded
    as the library sees fit.  An infinite result is a range error, the
    only one CPython keeps: it ignores that of an underflow to zero. *)
Class Libm : Type := { pow2 : float -> float }.

(** ** Python numbers and their operators *)

Inductive value : Type :=
| PyInt (z : Z)
| PyFloat (f : float).

Module Py.

(** [float(v)]: an [int] beyond the largest double cannot be converted. *)
Definition to_float (v : value) : result float :=
  match v with
  | PyInt z =>
      match Float.of_Z z with
      | S754_infinity _ => Raise OverflowError
      | f => Ok f
      end
  | PyFloat f => Ok f
  end.

(** An operator on two numbers of which one at least is a [float]: both
    are converted, the left one first. *)
Definition float_op (op : float -> float -> float) (a b : value)
  : result value :=
  x ← to_float a; y ← to_float b; mret (PyFloat (op x y)).

Definition add (a b : value) : result value :=
  match a, b with
  | PyInt x, PyInt y => Ok (PyInt (x + y))
  | _, _ => float_op Float.add a b
  end.

Definition sub (a b : value) : result value :=
  match a, b with
  | PyInt x, PyInt y => Ok (PyInt (x - y))
  | _, _ => float_op Float.sub a b
  end.

Definition mul (a b : value) : result value :=
  match a, b with
  | PyInt x, PyInt y => Ok (PyInt (x * y))
  | _, _ => float_op Float.mul a b
  end.

(** [a / b] is a [float] even on two [int]s, and then correctly
    rounded. *)
Definition truediv (a b : value) : result value :=
  match a, b with
  | PyInt x, PyInt y =>
      if y =? 0 then Raise ZeroDivisionError
      else match Float.of_quotient x y with
           | S754_infinity _ => Raise OverflowError
           | f => Ok (PyFloat f)
           end
  | _, _ =>
      x ← to_float a; y ← to_float b;
      if Float.is_zero y then Raise ZeroDivisionError
      else mret (PyFloat (Float.div x y))
  end.

(** [a // b] *)
Definition floordiv (a b : value) : result value :=
  match a, b with
  | PyInt x, PyInt y =>
      if y =? 0 then Raise ZeroDivisionError else Ok (PyInt (x `div` y))
  | _, _ =>
      x ← to_float a; y ← to_float b;
      if Float.is_zero y then Raise ZeroDivisionError
      else mret (PyFloat (Float.floordiv x y))
  end.

(** [a ** 2]: exact on an [int]; on a [float], [float_pow] of CPython's
    [floatobject.c].  A NaN gives itself, an infinity the positive
    infinity and a zero the positive zero; the sign of a negative base
    is dropped, the exponent being even; a base of magnitude one gives
    [1.0]; any other base goes to [pow] of the C library, whose infinite
    result is an [OverflowError]. *)
Definition square {libm : Libm} (a : value) : result value :=
  match a with
  | PyInt x => Ok (PyInt (x * x))
  | PyFloat x =>
      match x with
      | S754_nan => Ok (PyFloat S754_nan)
      | S754_infinity _ => Ok (PyFloat (S754_infinity false))
      | S754_zero _ => Ok (PyFloat Float.zero)
      | S754_finite _ m e =>
          let base := S754_finite false m e in
          if SFeqb base Float.one then Ok (PyFloat Float.one)
          else match pow2 base with
               | S754_infinity _ => Raise OverflowError
               | r => Ok (PyFloat r)
               end
      end
  end.

(** [0 <= v] and [0 < v] *)
Definition nonneg (v : value) : bool :=
  match v with
  | PyInt z => 0 <=? z
  | PyFloat f => Float.nonneg f
  end.

Definition pos (v : value) : bool :=
  match v with
  | PyInt z => 0 <? z
  | PyFloat f => Float.pos f
  end.

(** A numeric literal of the source: digits alone are an [int], digits
    with a fractional part the nearest [float]. *)
Definition of_number (n : Number.number) : option value :=
  match n with
  | Number.Decimal (Decimal.Decimal (Decimal.Pos i) Decimal.Nil) =>
      Some (PyInt (Z.of_uint i))
  | Number.Decimal (Decimal.Decimal (Decimal.Pos i) f) =>
      Some (PyFloat (Float.of_quotient
                       (Z.of_uint (Decimal.app i f))
                       (10 ^ Z.of_nat (Decimal.nb_digits f))))
  | _ => None
  end.

Definition to_number (v : value) : option Number.number :=
  match v with
  | PyInt (Zneg _) | PyFloat _ => None
  | PyInt z =>
      Some (Number.Decimal (Decimal.Decimal (Z.to_int z) Decimal.Nil))
  end.

End Py.

Declare Scope py_scope.
Delimit Scope py_scope with py.
Number Notation value Py.of_number Py.to_number : py_scope.

(** A Python expression evaluates to a number or raises. *)
Definition expr : Type := result value.
Bind Scope py_scope with expr.
Bind Scope py_scope with value.

Definition const (v : value) : expr := Ok v.
Coercion const : value >-> expr.

(** Operands are evaluated left to right, then the operator applies. *)
Definition binop (op : value -> value -> result value) (a b : expr) : expr :=
  x ← a; y ← b; op x y.

Definition square {libm : Libm} (a : expr) : expr := x ← a; Py.square x.

Notation "a + b" := (binop Py.add a b) : py_scope.
Notation "a - b" := (binop Py.sub a b) : py_scope.
Notation "a * b" := (binop Py.mul a b) : py_scope.
Notation "a / b" := (binop Py.truediv a b) : py_scope.
Notation "a // b" := (binop Py.floordiv a b)
  (at level 40, left associativity) : py_scope.

(** ** Fixed-point formatting: the format specification [.3f] *)

Module Format.

(** The integer nearest to a fraction, ties to even. *)
Definition round_half_even (q : Q) : Z :=
  let n := Qfloor q in
  match (q - inject_Z n ?= 1 # 2)%Q with
  | Lt => n
  | Eq => if Z.even n then n else n + 1
  | Gt => n + 1
  end.

Definition digit (d : Z) : ascii := ascii_of_N (48 + Z.to_N d).

(** The decimal digits of a natural number, no leading zero. *)
Definition digits (n : Z) : string :=
  NilZero.string_of_uint (N.to_uint (Z.to_N n)).

(** The thousandths of the magnitude of a finite double, rounded from
    its exact binary value. *)
Definition thousandths (x : float) : Z :=
  round_half_even (1000 * Qabs (Float.to_Q x)).

Definition fixed3 (sign : bool) (n : Z) : string :=
  (if sign then "-" else "")
    +:+ digits (n `div` 1000)
    +:+ "."
    +:+ String (digit ((n `div` 100) `mod` 10))
         (String (digit ((n `div` 10) `mod` 10))
            (String (digit (n `mod` 10)) EmptyString)).

Definition float_f3 (x : float) : string :=
  match x with
  | S754_nan => "nan"
  | S754_infinity s => if s then "-inf" else "inf"
  | _ => fixed3 (Float.sign x) (thousandths x)
  end.

(** [format(v, '.3f')]: an [int] is converted to a [float] first. *)
Definition f3 (v : value) : result string :=
  x ← Py.to_float v; mret (float_f3 x).

End Format.

(** ** Standard output *)

(** A computation that may print lines and then returns or raises. *)
Record io (A : Type) : Type := IO { output : list string; outcome : result A }.

Arguments IO {A} output outcome.
Arguments output {A} _.
Arguments outcome {A} _.

#[global] Instance io_ret : MRet io := fun _ a => IO [] (Ok a).

#[global] Instance io_bind : MBind io := fun _ _ k m =>
  match outcome m with
  | Ok a => IO (output m ++ output (k a)) (outcome (k a))
  | Raise e => IO (output m) (Raise e)
  end.

Definition lift {A : Type} (r : result A) : io A := IO [] r.

Definition print (line : string) : io unit := IO [line] (Ok tt).

(** [try: body except E: handler], [catches] telling the exceptions of
    class [E]. *)
Definition try_except {A : Type}
  (body : io A) (catches : exn -> bool) (handler : io A) : io A :=
  match outcome body with
  | Ok _ => body
  | Raise e =>
      if catches e
      then IO (output body ++ output handler) (outcome handler)
      else body
  end.

Definition is_KeyError (e : exn) : bool :=
  match e with KeyError _ => true | _ => false end.

Definition is_AttributeError (e : exn) : bool :=
  match e with AttributeError => true | _ => false end.

(** ** class InfoMessage *)

Module InfoMessage.

Record t : Type := Build {
  training_type : string;
  duration : value;
  distance : value;
  speed : value;
  calories : value
}.

Definition get_message (self : t) : result string :=
  duration ← Format.f3 (duration self);
  distance ← Format.f3 (distance self);
  speed ← Format.f3 (speed self);
  calories ← Format.f3 (calories self);
  mret ("Тип тренировки: " +:+ training_type self +:+ "; "
        +:+ "Длительность: " +:+ duration +:+ " ч.; "
        +:+ "Дистанция: " +:+ distance +:+ " км; "
        +:+ "Ср. скорость: " +:+ speed +:+ " км/ч; "
        +:+ "Потрачено ккал: " +:+ calories +:+ ".").

End InfoMessage.

(** ** class Training and its subclasses *)

Inductive class : Type := Training | Running | SportsWalking | Swimming.

Definition __name__ (c : class) : string :=
  match c with
  | Training => "Training"
  | Running => "Running"
  | SportsWalking => "SportsWalking"
  | Swimming => "Swimming"
  end.

(** An instance holds the attributes its [__init__] sets. *)
Inductive instance : Type :=
| TrainingObject (action duration weight : value)
| RunningObject (action duration weight : value)
| SportsWalkingObject (action duration weight height : value)
| SwimmingObject (action duration weight length_pool count_pool : value).

Definition type (self : instance) : class :=
  match self with
  | TrainingObject _ _ _ => Training
  | RunningObject _ _ _ => Running
  | SportsWalkingObject _ _ _ _ => SportsWalking
  | SwimmingObject _ _ _ _ _ => Swimming
  end.

Definition action (self : instance) : value :=
  match self with
  | TrainingObject a _ _ | RunningObject a _ _
  | SportsWalkingObject a _ _ _ | SwimmingObject a _ _ _ _ => a
  end.

Definition duration (self : instance) : value :=
  match self with
  | TrainingObject _ d _ | RunningObject _ d _
  | SportsWalkingObject _ d _ _ | SwimmingObject _ d _ _ _ => d
  end.

Definition weight (self : instance) : value :=
  match self with
  | TrainingObject _ _ w | RunningObject _ _ w
  | SportsWalkingObject _ _ w _ | SwimmingObject _ _ w _ _ => w
  end.

(** Calling a class on positional arguments: [__init__] takes three, four
    or five of them. *)
Definition new (c : class) (data : list value) : result instance :=
  match c, data with
  | Training, [a; d; w] => Ok (TrainingObject a d w)
  | Running, [a; d; w] => Ok (RunningObject a d w)
  | SportsWalking, [a; d; w; h] => Ok (SportsWalkingObject a d w h)
  | Swimming, [a; d; w; lp; cp] => Ok (SwimmingObject a d w lp cp)
  | _, _ => Raise TypeError
  end.

(** Class attributes; [Swimming] overrides [LEN_STEP]. *)
Definition LEN_STEP (c : class) : value :=
  match c with
  | Swimming => 1.38%py
  | _ => 0.65%py
  end.

Definition M_IN_KM : value := 1000%py.
Definition HOURS_TO_MIN : value := 60%py.

Definition COEFF_CALORIE_RUN_1 : value := 18%py.
Definition COEFF_CALORIE_RUN_2 : value := 20%py.

Definition COEFF_CALORIE_WLK_1 : value := 0.035%py.
Definition COEFF_CALORIE_WLK_2 : value := 0.029%py.

Definition COEFF_CALORIE_SWM_1 : value := 1.1%py.
Definition COEFF_CALORIE_SWM_2 : value := 2%py.

Definition get_distance (self : instance) : expr :=
  (action self * LEN_STEP (type self) / M_IN_KM)%py.

(** [Swimming] overrides [get_mean_speed]. *)
Definition get_mean_speed (self : instance) : expr :=
  match self with
  | SwimmingObject _ duration _ length_pool count_pool =>
      (length_pool * count_pool / M_IN_KM / duration)%py
  | _ =>
      (get_distance self / duration self)%py
  end.

(** The base class has no formula; each subclass defines its own. *)
Definition get_spent_calories {libm : Libm} (self : instance) : expr :=
  match self with
  | TrainingObject _ _ _ =>
      Raise NotImplementedError
  | RunningObject _ duration weight =>
      ((COEFF_CALORIE_RUN_1 * get_mean_speed self
        - COEFF_CALORIE_RUN_2) * weight / M_IN_KM
       * duration * HOURS_TO_MIN)%py
  | SportsWalkingObject _ duration weight height =>
      ((COEFF_CALORIE_WLK_1 * weight
        + (square (get_mean_speed self) // height)
          * COEFF_CALORIE_WLK_2 * weight) * duration
       * HOURS_TO_MIN)%py
  | SwimmingObject _ _ weight _ _ =>
      ((get_mean_speed self + COEFF_CALORIE_SWM_1)
       * COEFF_CALORIE_SWM_2 * weight)%py
  end.

Definition show_training_info {libm : Libm} (self : instance)
  : result InfoMessage.t :=
  distance ← get_distance self;
  speed ← get_mean_speed self;
  calories ← get_spent_calories self;
  mret {| InfoMessage.training_type := __name__ (type self);
          InfoMessage.duration := duration self;
          InfoMessage.distance := distance;
          InfoMessage.speed := speed;
          InfoMessage.calories := calories |}.

(** ** Dispatch and the driver *)

Definition trainings : gmap string class :=
  <["SWM" := Swimming]> (<["RUN" := Running]> (<["WLK" := SportsWalking]> ∅)).

(** [d[key]] *)
Definition getitem (d : gmap string class) (key : string) : result class :=
  match d !! key with
  | Some c => Ok c
  | None => Raise (KeyError key)
  end.

(** A function that ends without [return] returns [None]. *)
Definition read_package (workout_type : string) (data : list value)
  : io (option instance) :=
  try_except
    (lift (c ← getitem trainings workout_type;
           self ← new c data;
           mret (Some self)))
    is_KeyError
    (print ("KeyError: Тип тренировки " +:+ workout_type
            +:+ " не может быть обработан.");;
     mret None).

(** [None] has no attribute [show_training_info]. *)
Definition main {libm : Libm} (training : option instance) : io unit :=
  try_except
    (info ← lift (match training with
                  | Some self => show_training_info self
                  | None => Raise AttributeError
                  end);
     result ← lift (InfoMessage.get_message info);
     print result)
    is_AttributeError
    (mret tt).

Definition packages : list (string * list value) :=
  [ ("SWM", [720%py; 1%py; 80%py; 25%py; 40%py]);
    ("RUN", [15000%py; 1%py; 75%py]);
    ("WLK", [9000%py; 1%py; 75%py; 180%py]) ].

(** The loop of the script: an uncaught exception ends it. *)
Fixpoint run {libm : Libm} (packages : list (string * list value)) : io unit :=
  match packages with
  | [] => mret tt
  | (workout_type, data) :: rest =>
      training ← read_package workout_type data;
      main training;;
      run rest
  end.

Definition script {libm : Libm} : io unit := run packages.

(** * Notions of the properties *)

(** ** The demonstration workouts *)

Definition demo_swimming : instance :=
  SwimmingObject 720%py 1%py 80%py 25%py 40%py.

Definition demo_running : instance :=
  RunningObject 15000%py 1%py 75%py.

Definition demo_walking : instance :=
  SportsWalkingObject 9000%py 1%py 75%py 180%py.

(** ** The inputs of a workout *)

(** The counts of a workout are not negative. *)
Definition counts_nonneg (self : instance) : bool :=
  Py.nonneg (action self)
  && match self with
     | SwimmingObject _ _ _ length_pool count_pool =>
         Py.nonneg length_pool && Py.nonneg count_pool
     | _ => true
     end.

(** An [int] below [2 ^ 1023], which has a double; a [float] is one. *)
Definition int_in_range (v : value) : bool :=
  match v with
  | PyInt z => Z.abs z <? 2 ^ 1023
  | PyFloat _ => true
  end.

(** A swimming workout in a pool of infinite length, swum zero times;
    a run of [2 ^ 1024] steps. *)
Definition unbounded_pool : instance :=
  SwimmingObject 0%py 1%py 80%py (PyFloat (S754_infinity false)) 0%py.

Definition endless_run : instance :=
  RunningObject (PyInt (2 ^ 1024)) 1%py 75%py.

(** ** Numbers of the specification *)

(** The specification computes with decimal fractions, the program with
    doubles: a double stands for a fraction when it is within one unit in
    its last place, a relative distance of [2 ^ -52]. *)
Definition within_rounding (v : value) (q : Q) : Prop :=
  match v with
  | PyInt z => (inject_Z z == q)%Q
  | PyFloat x =>
      Float.is_finite x = true
      /\ (Qabs (Float.to_Q x - q) <= Qabs q * (1 # 2 ^ 52))%Q
  end.

(** ** Floor division, as the specification words it *)

(** [q] is the floor of the fraction [z]: the integer with
    [q <= z < q + 1]. *)
Definition is_floor (q : Z) (z : Q) : Prop :=
  (inject_Z q <= z)%Q /\ (z < inject_Z (q + 1))%Q.

(** [floor_div] as the specification words it, on two numbers: the
    double of the floor of the exact quotient of their doubles. *)
Definition spec_floor_div (a b : value) : result value :=
  x ← Py.to_float a; y ← Py.to_float b;
  if Float.is_zero y then Raise ZeroDivisionError
  else mret (PyFloat (Float.of_Z (Qfloor (Float.to_Q x / Float.to_Q y)))).

(** A walk of 12345 steps in one hour, whose speed is 8.02425, by someone
    whose height is given as [1e-14]. *)
Definition fast_walk : instance :=
  SportsWalkingObject 12345%py 1%py 75%py 0.00000000000001%py.

(** ** Doubles within the format *)

(** The result of a rounding in terms of its last mantissa and exponent. *)
Definition pack (s : bool) (m e : Z) : float :=
  match m with
  | Z0 => S754_zero s
  | Zpos p => if e <=? 971 then S754_finite s p e else S754_infinity s
  | Zneg _ => S754_nan
  end.

(** A double that is a zero or has a mantissa of at most 53 bits and an
    exponent of at most 971. *)
Definition bounded (x : float) : Prop :=
  match x with
  | S754_zero _ => True
  | S754_finite _ m e => Zpos m < 2 ^ 53 /\ e <= 971
  | _ => False
  end.

(** The doubles of [LEN_STEP] and of [M_IN_KM]. *)
Definition step (c : class) : float :=
  match LEN_STEP c with PyFloat L => L | PyInt _ => Float.zero end.

Definition thousand : float := S754_finite false 8796093022208000 (-43).

(** ** The shape of a number with three decimal places *)

Definition is_digit (c : ascii) : bool :=
  let n := N_of_ascii c in ((48 <=? n) && (n <=? 57))%N.

(** The three digits that end the number. *)
Definition three_digits (s : string) : bool :=
  match s with
  | String d1 (String d2 (String d3 EmptyString)) =>
      is_digit d1 && is_digit d2 && is_digit d3
  | _ => false
  end.

(** Digits, if any, then a point and three digits. *)
Fixpoint digits_point_three (s : string) : bool :=
  match s with
  | EmptyString => false
  | String c s' =>
      if is_digit c then digits_point_three s'
      else Ascii.eqb c "." && three_digits s'
  end.

(** An optional minus sign, a digit, then [digits_point_three]: the
    regular expression [-?[0-9]+\.[0-9]{3}]. *)
Definition three_decimals (s : string) : bool :=
  let unsigned :=
    match s with
    | String c s' => if Ascii.eqb c "-" then s' else s
    | EmptyString => s
    end in
  match unsigned with
  | String c s' => is_digit c && digits_point_three s'
  | EmptyString => false
  end.

(** A number that [.3f] prints with digits: an [int] within the range of
    the doubles or a finite [float]. *)
Definition finite_number (v : value) : bool :=
  match Py.to_float v with
  | Ok x => Float.is_finite x
  | Raise _ => false
  end.

(** A number above zero that is not an infinity. *)
Definition positive_finite (v : value) : bool := Py.pos v && finite_number v.

(** The counts of a workout are finite: the number of steps or strokes
    has a finite double; for swimming, so have the two numbers of the
    pool, or, when both are [int]s, their product is below [2 ^ 1023]. *)
Definition counts_finite (self : instance) : bool :=
  finite_number (action self)
  && match self with
     | SwimmingObject _ _ _ (PyInt length_pool) (PyInt count_pool) =>
         int_in_range (PyInt (length_pool * count_pool))
     | SwimmingObject _ _ _ length_pool count_pool =>
         finite_number length_pool && finite_number count_pool
     | _ => true
     end.

(** The report as the specification words it, in English. *)
Definition spec_get_message (self : InfoMessage.t) : result string :=
  duration ← Format.f3 (InfoMessage.duration self);
  distance ← Format.f3 (InfoMessage.distance self);
  speed ← Format.f3 (InfoMessage.speed self);
  calories ← Format.f3 (InfoMessage.calories self);
  mret ("Training type: " +:+ InfoMessage.training_type self +:+ "; "
        +:+ "Duration: " +:+ duration +:+ " h.; "
        +:+ "Distance: " +:+ distance +:+ " km; "
        +:+ "Avg. speed: " +:+ speed +:+ " km/h; "
        +:+ "Calories burned: " +:+ calories +:+ ".").

Fixpoint all_digits (s : string) : bool :=
  match s with
  | EmptyString => true
  | String c s' => is_digit c && all_digits s'
  end.

(** ** Notions of the further properties *)

(** The positional arguments an instance was built from. *)
Definition attributes (self : instance) : list value :=
  match self with
  | TrainingObject a d w => [a; d; w]
  | RunningObject a d w => [a; d; w]
  | SportsWalkingObject a d w h => [a; d; w; h]
  | SwimmingObject a d w lp cp => [a; d; w; lp; cp]
  end.

(** The number of parameters of [__init__], [self] apart. *)
Definition arity (c : class) : nat :=
  match c with
  | Training | Running => 3
  | SportsWalking => 4
  | Swimming => 5
  end.

(** The faults of the arithmetic. *)
Definition arithmetic_fault (e : exn) : Prop :=
  e = OverflowError \/ e = ZeroDivisionError.

(** The faults that end the script. *)
Definition script_fault (e : exn) : Prop :=
  e = TypeError \/ e = OverflowError \/ e = ZeroDivisionError.

(** A zero: the [int] 0 or one of the two [float] zeros. *)
Definition is_zero_number (v : value) : bool :=
  match v with
  | PyInt z => z =? 0
  | PyFloat x => Float.is_zero x
  end.

(** The line [read_package] prints for a code that is not in the table. *)
Definition diagnostic (code : string) : string :=
  "KeyError: Тип тренировки " +:+ code +:+ " не может быть обработан.".

(** A result whose exception, if it is one, is of a given kind. *)
Definition raises_only {A : Type} (P : exn -> Prop) (r : result A) : Prop :=
  match r with
  | Ok _ => True
  | Raise e => P e
  end.

(** The line that [main] prints for an instance: the message of its
    training info. *)
Definition report {libm : Libm} (self : instance) : result string :=
  info ← show_training_info self; InfoMessage.get_message info.

(** The exceptions of an instance: those of the arithmetic, and that of
    the base class, which has no calories. *)
Definition workout_fault (self : instance) (e : exn) : Prop :=
  arithmetic_fault e \/ (e = NotImplementedError /\ type self = Training).

(** What the script does for one package: the line it prints, the
    diagnostic or the report, or the exception it ends with. *)
Definition package_line {libm : Libm} (package : string * list value)
  : result string :=
  match trainings !! package.1 with
  | None => Ok (diagnostic package.1)
  | Some c => self ← new c package.2; report self
  end.

(** Lines printed one after the other, up to the first exception. *)
Fixpoint lines_until_fault (lines : list (result string)) : io unit :=
  match lines with
  | [] => IO [] (Ok tt)
  | Ok line :: lines =>
      IO (line :: output (lines_until_fault lines))
         (outcome (lines_until_fault lines))
  | Raise e :: _ => IO [] (Raise e)
  end.

(** The result is a number, not an exception. *)
Definition returns {A : Type} (r : result A) : bool :=
  match r with
  | Ok _ => true
  | Raise _ => false
  end.

(** [float(v)] exists: [v] is a [float], or an [int] that has a double. *)
Definition convertible (v : value) : bool := returns (Py.to_float v).

(** An expression whose value, if it has one, is a [float]. *)
Definition floating (r : expr) : Prop :=
  match r with
  | Ok (PyInt _) => False
  | _ => True
  end.

(** Every [int] among the attributes is below [2 ^ 1023], and so is the
    product of the two numbers of the pool when both are [int]s. *)
Definition numbers_in_range (self : instance) : bool :=
  forallb int_in_range (attributes self)
  && match self with
     | SwimmingObject _ _ _ (PyInt length_pool) (PyInt count_pool) =>
         int_in_range (PyInt (length_pool * count_pool))
     | _ => true
     end.

(** The three operators that give an [int] on two [int]s. *)
Inductive ring_operator : (value -> value -> result value) -> Prop :=
| ring_add : ring_operator Py.add
| ring_sub : ring_operator Py.sub
| ring_mul : ring_operator Py.mul.

(** Two numbers with the same [float], as [75] and [75.0]; or two [int]s
    that both have none. *)
Definition same_number (a b : value) : Prop := Py.to_float a = Py.to_float b.

(** Two workouts of one class whose arguments are the same numbers, the
    two numbers of the pool being the very same values. *)
Definition same_workout (self other : instance) : Prop :=
  match self, other with
  | TrainingObject a d w, TrainingObject a' d' w'
  | RunningObject a d w, RunningObject a' d' w' =>
      same_number a a' /\ same_number d d' /\ same_number w w'
  | SportsWalkingObject a d w h, SportsWalkingObject a' d' w' h' =>
      same_number a a' /\ same_number d d' /\ same_number w w'
      /\ same_number h h'
  | SwimmingObject a d w lp cp, SwimmingObject a' d' w' lp' cp' =>
      same_number a a' /\ same_number d d' /\ same_number w w'
      /\ lp = lp' /\ cp = cp'
  | _, _ => False
  end.

(** The square of a finite double is beyond the largest double: the
    double is not a zero, its magnitude is not one and [pow] returns an
    infinity on it. *)
Definition square_overflows {libm : Libm} (x : float) : bool :=
  match x with
  | S754_finite _ m e =>
      let base := S754_finite false m e in
      negb (SFeqb base Float.one)
      && match pow2 base with S754_infinity _ => true | _ => false end
  | _ => false
  end.

(** A double with the sign bit set that is not a NaN: a negative number,
    the negative zero or minus infinity. *)
Definition negative (r : expr) : Prop :=
  exists x : float, r = Ok (PyFloat x) /\ x <> S754_nan /\ Float.sign x = true.

(** ** A C library for the examples *)

(** A library whose [pow(x, 2.0)] is the double nearest to the square.
    The examples that name no library are computed with it. *)
#[global] Instance correctly_rounded : Libm :=
  {| pow2 := fun x => Float.mul x x |}.

(** * Binary64: the shape of rounded results *)

(** ** The digits of a mantissa *)

Lemma fexp_eq (e : Z) :
  fexp Float.prec Float.emax e = Z.max (e - 53) (-1074).
Proof. reflexivity. Qed.

Lemma digits2_pos_size (p : positive) : digits2_pos p = Pos.size p.
Proof. induction p; simpl; congruence. Qed.

Lemma Zdigits2_nonneg (m : Z) : 0 <= Zdigits2 m.
Proof. destruct m; simpl; lia. Qed.

Lemma Zdigits2_upper (m : Z) : 0 <= m -> m < 2 ^ Zdigits2 m.
Proof.
  destruct m as [|p|p]; simpl; [lia | | lia]. intros _.
  rewrite digits2_pos_size.
  pose proof (Pos.size_gt p) as H.
  rewrite <- Pos2Z.inj_pow. lia.
Qed.

Lemma Zdigits2_lower (m : Z) : 0 < m -> 2 ^ (Zdigits2 m - 1) <= m.
Proof.
  destruct m as [|p|p]; simpl; [lia | | lia]. intros _.
  rewrite digits2_pos_size.
  pose proof (Pos.size_le p) as H.
  assert (Hle : 2 ^ Zpos (Pos.size p) <= 2 * Zpos p).
  { rewrite <- Pos2Z.inj_pow. lia. }
  replace (Zpos (Pos.size p)) with (Z.succ (Zpos (Pos.size p) - 1)) in Hle
    by lia.
  rewrite Z.pow_succ_r in Hle by lia. lia.
Qed.

Lemma Zdigits2_le (m k : Z) : 0 <= m -> 0 <= k -> m < 2 ^ k -> Zdigits2 m <= k.
Proof.
  intros Hm Hk Hlt.
  destruct (Z.eq_dec m 0) as [-> | Hne]; [simpl; lia |].
  destruct (Z.le_gt_cases (Zdigits2 m) k) as [|Hgt]; [assumption | exfalso].
  pose proof (Zdigits2_lower m ltac:(lia)) as Hlow.
  assert (2 ^ k <= 2 ^ (Zdigits2 m - 1)) by (apply Z.pow_le_mono_r; lia).
  lia.
Qed.

(** ** Right shifts *)

Lemma shr_1_m (mrs : shr_record) :
  0 <= shr_m mrs -> shr_m (shr_1 mrs) = shr_m mrs / 2.
Proof.
  destruct mrs as [m r s]; simpl. intros Hm.
  destruct m as [|[p|p|]|p]; cbn [shr_m]; [reflexivity | | | reflexivity | lia].
  - apply Z.div_unique with (r := 1); lia.
  - apply Z.div_unique with (r := 0); lia.
Qed.

Lemma pow2_xI (p : positive) : 2 ^ Zpos p~1 = 2 * (2 ^ Zpos p * 2 ^ Zpos p).
Proof.
  rewrite (Pos2Z.inj_xI p).
  replace (2 * Zpos p + 1) with (1 + (Zpos p + Zpos p)) by lia.
  rewrite Z.pow_add_r by lia. rewrite Z.pow_add_r by lia. reflexivity.
Qed.

Lemma pow2_xO (p : positive) : 2 ^ Zpos p~0 = 2 ^ Zpos p * 2 ^ Zpos p.
Proof.
  rewrite (Pos2Z.inj_xO p).
  replace (2 * Zpos p) with (Zpos p + Zpos p) by lia.
  rewrite Z.pow_add_r by lia. reflexivity.
Qed.

Lemma iter_shr_1_m (p : positive) (mrs : shr_record) :
  0 <= shr_m mrs ->
  shr_m (@SpecFloat.iter_pos shr_record shr_1 p mrs) = shr_m mrs / 2 ^ Zpos p.
Proof.
  revert mrs.
  induction p as [p IH | p IH |]; intros mrs Hm; simpl SpecFloat.iter_pos.
  - assert (H1 : 0 <= shr_m (shr_1 mrs)).
    { rewrite shr_1_m by assumption. apply Z.div_pos; lia. }
    assert (H2 : 0 <= shr_m (@SpecFloat.iter_pos shr_record shr_1 p (shr_1 mrs))).
    { rewrite IH by assumption. apply Z.div_pos; lia. }
    rewrite IH, IH, shr_1_m by assumption.
    rewrite !Z.div_div by lia.
    rewrite pow2_xI. reflexivity.
  - assert (H2 : 0 <= shr_m (@SpecFloat.iter_pos shr_record shr_1 p mrs)).
    { rewrite IH by assumption. apply Z.div_pos; lia. }
    rewrite IH, IH by assumption.
    rewrite !Z.div_div by lia.
    rewrite pow2_xO. reflexivity.
  - apply shr_1_m. assumption.
Qed.

Lemma shr_record_of_loc_m (m : Z) (l : location) :
  shr_m (shr_record_of_loc m l) = m.
Proof. destruct l as [|[]]; reflexivity. Qed.

(** One shift of [binary_round_aux]: the mantissa loses the bits below the
    exponent that the format allows. *)
Lemma shr_fexp_spec (m e : Z) (l : location) :
  0 <= m ->
  let e' := Z.max e (fexp Float.prec Float.emax (Zdigits2 m + e)) in
  shr_m (fst (shr_fexp Float.prec Float.emax m e l)) = m / 2 ^ (e' - e)
  /\ snd (shr_fexp Float.prec Float.emax m e l) = e'.
Proof.
  intros Hm e'. subst e'. unfold shr_fexp, shr.
  set (f := fexp Float.prec Float.emax (Zdigits2 m + e)).
  destruct (f - e) as [|p|p] eqn:Hn; simpl fst; simpl snd.
  - rewrite shr_record_of_loc_m.
    replace (Z.max e f - e) with 0 by lia. rewrite Z.div_1_r. lia.
  - rewrite iter_shr_1_m by (rewrite shr_record_of_loc_m; assumption).
    rewrite shr_record_of_loc_m.
    replace (Z.max e f - e) with (Zpos p) by lia. lia.
  - rewrite shr_record_of_loc_m.
    replace (Z.max e f - e) with 0 by lia. rewrite Z.div_1_r. lia.
Qed.

(** ** Rounding *)

Lemma round_nearest_even_bounds (m : Z) (l : location) :
  m <= round_nearest_even m l <= m + 1.
Proof.
  unfold round_nearest_even.
  destruct l as [|[]]; try lia. destruct (Z.even m); lia.
Qed.

Lemma binary_round_aux_spec (s : bool) (m e : Z) (l : location) :
  0 <= m ->
  let e1 := Z.max e (fexp Float.prec Float.emax (Zdigits2 m + e)) in
  exists m1 : Z,
    m / 2 ^ (e1 - e) <= m1 <= m / 2 ^ (e1 - e) + 1
    /\ let e2 := Z.max e1 (fexp Float.prec Float.emax (Zdigits2 m1 + e1)) in
       binary_round_aux Float.prec Float.emax s m e l
       = pack s (m1 / 2 ^ (e2 - e1)) e2.
Proof.
  intros Hm e1.
  unfold binary_round_aux.
  pose proof (shr_fexp_spec m e l Hm) as [H1 H1'].
  destruct (shr_fexp Float.prec Float.emax m e l) as [mrs' e'].
  simpl in H1, H1'. fold e1 in H1, H1'. subst e'.
  set (m1 := round_nearest_even (shr_m mrs') (loc_of_shr_record mrs')).
  assert (Hb : shr_m mrs' <= m1 <= shr_m mrs' + 1)
    by apply round_nearest_even_bounds.
  rewrite H1 in Hb.
  assert (H0 : 0 <= m / 2 ^ (e1 - e)) by (apply Z.div_pos; [lia | apply Z.pow_pos_nonneg; lia]).
  exists m1. split; [exact Hb |]. cbv zeta.
  pose proof (shr_fexp_spec m1 e1 loc_Exact ltac:(lia)) as [H2 H2'].
  destruct (shr_fexp Float.prec Float.emax m1 e1 loc_Exact) as [mrs'' e''].
  simpl in H2, H2'. subst e''. rewrite H2.
  reflexivity.
Qed.

Lemma div_pow2_lt (m d n : Z) :
  0 <= m -> m < 2 ^ d -> 0 <= d -> 0 <= n -> d - 53 <= n ->
  m / 2 ^ n < 2 ^ 53.
Proof.
  intros Hm Hlt Hd Hn Hdn.
  assert (Hp : 0 < 2 ^ n) by (apply Z.pow_pos_nonneg; lia).
  apply Z.div_lt_upper_bound; [assumption |].
  rewrite <- Z.pow_add_r by lia.
  apply Z.lt_le_trans with (1 := Hlt).
  apply Z.pow_le_mono_r; lia.
Qed.

Lemma div_pow2_lt_scaled (m c k n : Z) :
  0 <= m -> m < c * 2 ^ k -> 0 <= k -> k <= n -> m / 2 ^ n < c.
Proof.
  intros Hm Hlt Hk Hn.
  assert (Hpk : 0 < 2 ^ k) by (apply Z.pow_pos_nonneg; lia).
  assert (Hle : 2 ^ k <= 2 ^ n) by (apply Z.pow_le_mono_r; lia).
  apply Z.le_lt_trans with (m / 2 ^ k).
  - apply Z.div_le_compat_l; lia.
  - apply Z.div_lt_upper_bound; lia.
Qed.

Lemma pack_sign (s : bool) (m e : Z) :
  0 <= m -> pack s m e <> S754_nan /\ Float.sign (pack s m e) = s.
Proof.
  intros Hm. destruct m as [|p|p]; simpl; [split; [discriminate | reflexivity] | | lia].
  destruct (e <=? 971); split; (discriminate || reflexivity).
Qed.

Lemma pack_bounded (s : bool) (m e : Z) :
  0 <= m < 2 ^ 53 -> pack s m e = S754_infinity s \/ bounded (pack s m e).
Proof.
  intros Hm. destruct m as [|p|p]; simpl; [right; exact I | | lia].
  destruct (Z.leb_spec e 971); [right; simpl; lia | left; reflexivity].
Qed.

Lemma pack_bounded_le (s : bool) (m e : Z) :
  0 <= m < 2 ^ 53 -> e <= 971 -> bounded (pack s m e).
Proof.
  intros Hm He. destruct m as [|p|p]; simpl; [exact I | | lia].
  destruct (Z.leb_spec e 971); [simpl; lia | lia].
Qed.

(** The last mantissa of a rounding has at most 53 bits. *)
Lemma last_mantissa_lt (m1 e1 : Z) :
  0 <= m1 ->
  let e2 := Z.max e1 (fexp Float.prec Float.emax (Zdigits2 m1 + e1)) in
  0 <= m1 / 2 ^ (e2 - e1) < 2 ^ 53.
Proof.
  intros Hm e2. subst e2. rewrite fexp_eq. split.
  - apply Z.div_pos; [lia | apply Z.pow_pos_nonneg; lia].
  - apply div_pow2_lt with (d := Zdigits2 m1);
      [lia | apply Zdigits2_upper; lia | apply Zdigits2_nonneg | lia | lia].
Qed.

(** A rounding keeps the sign it is given and yields an infinity or a
    bounded double. *)
Lemma binary_round_aux_shape (s : bool) (m e : Z) (l : location) :
  0 <= m ->
  let r := binary_round_aux Float.prec Float.emax s m e l in
  r <> S754_nan /\ Float.sign r = s /\ (r = S754_infinity s \/ bounded r).
Proof.
  intros Hm r. subst r.
  destruct (binary_round_aux_spec s m e l Hm) as (m1 & Hm1 & ->).
  assert (0 <= m / 2 ^ (Z.max e (fexp Float.prec Float.emax (Zdigits2 m + e)) - e))
    by (apply Z.div_pos; [lia | apply Z.pow_pos_nonneg; lia]).
  pose proof (last_mantissa_lt m1
    (Z.max e (fexp Float.prec Float.emax (Zdigits2 m + e))) ltac:(lia)) as Hlast.
  cbv zeta in Hlast.
  split; [apply pack_sign; lia |]. split; [apply pack_sign; lia |].
  apply pack_bounded. exact Hlast.
Qed.

(** A rounding does not overflow below a double [c * 2 ^ (e + k)]. *)
Lemma binary_round_aux_no_overflow (s : bool) (m e c k : Z) (l : location) :
  0 <= m -> m < c * 2 ^ k -> c < 2 ^ 53 -> 0 <= k -> e + k <= 971 ->
  bounded (binary_round_aux Float.prec Float.emax s m e l).
Proof.
  intros Hm Hlt Hc Hk He.
  destruct (binary_round_aux_spec s m e l Hm) as (m1 & Hm1 & ->).
  set (e1 := Z.max e (fexp Float.prec Float.emax (Zdigits2 m + e))) in *.
  assert (H0 : 0 <= m / 2 ^ (e1 - e))
    by (apply Z.div_pos; [lia | apply Z.pow_pos_nonneg; lia]).
  pose proof (last_mantissa_lt m1 e1 ltac:(lia)) as Hlast. cbv zeta in Hlast.
  apply pack_bounded_le; [exact Hlast |].
  assert (Hpk : 0 < 2 ^ k) by (apply Z.pow_pos_nonneg; lia).
  assert (HD : Zdigits2 m <= 53 + k).
  { apply Zdigits2_le; [lia | lia |].
    apply Z.lt_le_trans with (1 := Hlt).
    rewrite Z.pow_add_r by lia. apply Z.mul_le_mono_nonneg_r; lia. }
  pose proof (Zdigits2_nonneg m) as HD0.
  assert (He1' : e1 = Z.max e (Z.max (Zdigits2 m + e - 53) (-1074)))
    by (subst e1; rewrite fexp_eq; reflexivity).
  assert (He1 : e1 <= 971) by lia.
  assert (HD1 : Zdigits2 m1 <= 1024 - e1).
  { destruct (Z.le_gt_cases k (e1 - e)) as [Hge | Hlt1].
    - assert (m / 2 ^ (e1 - e) < c) by (apply div_pow2_lt_scaled with (k := k); lia).
      apply Z.le_trans with 53; [| lia].
      apply Zdigits2_le; lia.
    - assert (m / 2 ^ (e1 - e) < 2 ^ 53).
      { apply div_pow2_lt with (d := Zdigits2 m);
          [lia | apply Zdigits2_upper; lia | lia | lia | lia]. }
      apply Z.le_trans with 54; [| lia].
      apply Zdigits2_le; [lia | lia |].
      change (2 ^ 54) with (2 * 2 ^ 53). lia. }
  rewrite fexp_eq. lia.
Qed.

Lemma div_pow2_ge_1 (m n : Z) :
  0 < m -> 0 <= n <= Zdigits2 m - 1 -> 1 <= m / 2 ^ n.
Proof.
  intros Hm Hn.
  assert (Hp : 0 < 2 ^ n) by (apply Z.pow_pos_nonneg; lia).
  apply Z.div_le_lower_bound; [assumption |].
  pose proof (Zdigits2_lower m Hm) as Hlow.
  assert (2 ^ n <= 2 ^ (Zdigits2 m - 1)) by (apply Z.pow_le_mono_r; lia).
  lia.
Qed.

(** A rounding of a positive mantissa at an exponent of the format is not
    a zero. *)
Lemma binary_round_aux_nonzero (s : bool) (m e : Z) (l : location) :
  0 < m -> -1074 <= e ->
  Float.is_zero (binary_round_aux Float.prec Float.emax s m e l) = false.
Proof.
  intros Hm He.
  destruct (binary_round_aux_spec s m e l ltac:(lia)) as (m1 & Hm1 & ->).
  set (e1 := Z.max e (fexp Float.prec Float.emax (Zdigits2 m + e))) in *.
  assert (He1 : e1 = Z.max e (Z.max (Zdigits2 m + e - 53) (-1074)))
    by (subst e1; rewrite fexp_eq; reflexivity).
  pose proof (Zdigits2_lower m Hm) as Hlow.
  assert (HDm : 1 <= Zdigits2 m) by (destruct m; simpl; lia).
  assert (H1 : 1 <= m / 2 ^ (e1 - e)) by (apply div_pow2_ge_1; lia).
  set (e2 := Z.max e1 (fexp Float.prec Float.emax (Zdigits2 m1 + e1))).
  assert (He2 : e2 = Z.max e1 (Z.max (Zdigits2 m1 + e1 - 53) (-1074)))
    by (subst e2; rewrite fexp_eq; reflexivity).
  assert (HDm1 : 1 <= Zdigits2 m1) by (destruct m1; simpl; lia).
  assert (H2 : 1 <= m1 / 2 ^ (e2 - e1)) by (apply div_pow2_ge_1; lia).
  destruct (m1 / 2 ^ (e2 - e1)) as [|p|p]; simpl; [lia | | lia].
  destruct (e2 <=? 971); reflexivity.
Qed.

Lemma shl_align_exponent (mx : positive) (ex ex' : Z) :
  snd (shl_align mx ex ex') = ex \/ snd (shl_align mx ex ex') = ex'.
Proof. unfold shl_align. destruct (ex' - ex); simpl; auto. Qed.

Lemma binary_round_shape (s : bool) (p : positive) (e : Z) :
  let r := binary_round Float.prec Float.emax s p e in
  r <> S754_nan /\ Float.sign r = s /\ (r = S754_infinity s \/ bounded r).
Proof.
  unfold binary_round.
  destruct (shl_align p e _) as [mz ez].
  apply binary_round_aux_shape. lia.
Qed.

Lemma binary_round_nonzero (s : bool) (p : positive) (e : Z) :
  -1074 <= e -> Float.is_zero (binary_round Float.prec Float.emax s p e) = false.
Proof.
  intros He. unfold binary_round.
  pose proof (shl_align_exponent p e
                (fexp Float.prec Float.emax (Zpos (digits2_pos p) + e))) as Hs.
  destruct (shl_align p e _) as [mz ez]. simpl in Hs.
  apply binary_round_aux_nonzero; [lia |].
  rewrite fexp_eq in Hs. lia.
Qed.

(** ** Integers as doubles *)

Lemma shr_fexp_no_shift (m e : Z) (l : location) :
  fexp Float.prec Float.emax (Zdigits2 m + e) <= e ->
  shr_fexp Float.prec Float.emax m e l = (shr_record_of_loc m l, e).
Proof.
  intros H. unfold shr_fexp, shr.
  destruct (fexp Float.prec Float.emax (Zdigits2 m + e) - e) eqn:E;
    [reflexivity | lia | reflexivity].
Qed.

(** A mantissa of at most 53 bits at an exponent of the format is kept
    as it is. *)
Lemma binary_round_aux_exact (s : bool) (p : positive) (e : Z) :
  Zpos p < 2 ^ 53 -> -1074 <= e ->
  binary_round_aux Float.prec Float.emax s (Zpos p) e loc_Exact
  = pack s (Zpos p) e.
Proof.
  intros Hp He.
  assert (HD : Zdigits2 (Zpos p) <= 53) by (apply Zdigits2_le; lia).
  assert (Hf : fexp Float.prec Float.emax (Zdigits2 (Zpos p) + e) <= e)
    by (rewrite fexp_eq; lia).
  unfold binary_round_aux.
  rewrite (shr_fexp_no_shift (Zpos p) e loc_Exact Hf).
  cbn [shr_record_of_loc shr_m loc_of_shr_record round_nearest_even].
  rewrite (shr_fexp_no_shift (Zpos p) e loc_Exact Hf).
  reflexivity.
Qed.

Lemma iter_xO_pow2 (p d : positive) :
  Zpos (Pos.iter xO p d) = Zpos p * 2 ^ Zpos d.
Proof.
  induction d as [|d IH] using Pos.peano_ind.
  - cbn [Pos.iter]. rewrite (Pos2Z.inj_xO p). lia.
  - rewrite Pos.iter_succ, Pos2Z.inj_succ, Z.pow_succ_r by lia.
    rewrite (Pos2Z.inj_xO (Pos.iter xO p d)), IH. lia.
Qed.

(** The double of an integer below [2 ^ 53]: the integer itself. *)
Lemma binary_round_small (s : bool) (p : positive) :
  Zpos p < 2 ^ 53 ->
  exists (m : positive) (e : Z),
    binary_round Float.prec Float.emax s p 0 = S754_finite s m e
    /\ -52 <= e <= 0 /\ Zpos m = Zpos p * 2 ^ (- e) /\ Zpos m < 2 ^ 53.
Proof.
  intros Hp.
  assert (HD : Zdigits2 (Zpos p) <= 53) by (apply Zdigits2_le; lia).
  assert (HD1 : 1 <= Zdigits2 (Zpos p)) by (simpl; lia).
  pose proof (Zdigits2_upper (Zpos p) ltac:(lia)) as Hup.
  unfold binary_round. rewrite fexp_eq.
  change (Zpos (digits2_pos p)) with (Zdigits2 (Zpos p)).
  unfold shl_align.
  destruct (Z.max (Zdigits2 (Zpos p) + 0 - 53) (-1074) - 0) as [|d|d] eqn:E;
    [| lia |].
  - rewrite binary_round_aux_exact by lia.
    exists p, 0. cbn. split; [reflexivity | lia].
  - assert (Hd : Zpos d = 53 - Zdigits2 (Zpos p)) by lia.
    set (e := Z.max (Zdigits2 (Zpos p) + 0 - 53) (-1074)) in *.
    assert (He : e = - Zpos d) by lia.
    assert (Hm : Zpos (Pos.iter xO p d) < 2 ^ 53).
    { rewrite iter_xO_pow2.
      replace 53 with (Zdigits2 (Zpos p) + Zpos d) by lia.
      rewrite Z.pow_add_r by lia.
      apply Z.mul_lt_mono_pos_r; [apply Z.pow_pos_nonneg; lia | exact Hup]. }
    rewrite binary_round_aux_exact by lia.
    exists (Pos.iter xO p d), e. cbn [pack].
    replace (e <=? 971) with true by (symmetry; apply Z.leb_le; lia).
    split; [reflexivity |]. split; [lia |]. split; [| exact Hm].
    rewrite iter_xO_pow2. f_equal. f_equal. lia.
Qed.

Lemma to_Q_finite_integer (s : bool) (m : positive) (e n : Z) :
  -52 <= e <= 0 -> Zpos m = n * 2 ^ (- e) ->
  (Float.to_Q (S754_finite s m e) == inject_Z (if s then - n else n))%Q.
Proof.
  intros He Hm. unfold Float.to_Q.
  destruct e as [|e|e]; [| lia |].
  - change (2 ^ (- 0)) with 1 in Hm. change (2 ^ 0) with 1.
    rewrite Z.mul_1_r, Hm, Z.mul_1_r.
    destruct s; unfold Qeq; simpl; lia.
  - change (- Zneg e) with (Zpos e) in Hm.
    destruct s; unfold Qeq, Qopp, inject_Z; cbn [Qnum Qden];
      rewrite Hm, Pos2Z.inj_pow; lia.
Qed.

(** Integers below [2 ^ 53] are doubles. *)
Lemma of_Z_exact (z : Z) :
  Z.abs z < 2 ^ 53 ->
  Float.is_finite (Float.of_Z z) = true
  /\ (Float.to_Q (Float.of_Z z) == inject_Z z)%Q.
Proof.
  intros Hz. unfold Float.of_Z, binary_normalize.
  destruct z as [|p|p].
  - split; reflexivity.
  - destruct (binary_round_small false p ltac:(lia)) as (m & e & -> & He & Hm & _).
    split; [reflexivity |].
    apply (to_Q_finite_integer false m e (Zpos p) He Hm).
  - destruct (binary_round_small true p ltac:(lia)) as (m & e & -> & He & Hm & _).
    split; [reflexivity |].
    apply (to_Q_finite_integer true m e (Zpos p) He Hm).
Qed.

(** A quotient of two doubles whose ratio is below [2 ^ 1022] is a bounded
    double. *)
Lemma div_finite_bounded (sx sy : bool) (mx my : positive) (ex ey : Z) :
  Zdigits2 (Zpos mx) + ex - (Zdigits2 (Zpos my) + ey) <= 1022 ->
  bounded (Float.div (S754_finite sx mx ex) (S754_finite sy my ey)).
Proof.
  intros Hr. simpl. unfold SFdiv_core_binary. rewrite fexp_eq.
  set (d1 := Zdigits2 (Zpos mx)) in *. set (d2 := Zdigits2 (Zpos my)) in *.
  assert (Hd1 : 1 <= d1) by (subst d1; simpl; lia).
  assert (Hd2 : 1 <= d2) by (subst d2; simpl; lia).
  pose proof (Zdigits2_upper (Zpos mx) ltac:(lia)) as Hmx. fold d1 in Hmx.
  pose proof (Zdigits2_lower (Zpos my) ltac:(lia)) as Hmy. fold d2 in Hmy.
  set (e' := Z.min (Z.max (d1 + ex - (d2 + ey) - 53) (-1074)) (ex - ey)).
  set (s := ex - ey - e').
  set (m' := match s with
             | Zpos _ => Z.shiftl (Zpos mx) s
             | Z0 => Zpos mx
             | Zneg _ => 0
             end).
  assert (Hs : 0 <= s) by lia.
  assert (Hm' : m' = Zpos mx * 2 ^ s).
  { subst m'. destruct s as [|p|p] eqn:Es; [lia | | lia].
    apply Z.shiftl_mul_pow2. lia. }
  assert (Hps : 0 < 2 ^ s) by (apply Z.pow_pos_nonneg; lia).
  assert (Hq : fst (Z.div_eucl m' (Zpos my)) = m' / Zpos my) by reflexivity.
  destruct (Z.div_eucl m' (Zpos my)) as [q r]. simpl in Hq.
  assert (Hq0 : 0 <= q) by (rewrite Hq; apply Z.div_pos; lia).
  set (t := Z.max (d1 + s - d2 + 1) 0).
  assert (Hqt : q < 2 ^ t).
  { rewrite Hq. apply Z.div_lt_upper_bound; [lia |].
    apply Z.lt_le_trans with (2 ^ d1 * 2 ^ s); [nia |].
    apply Z.le_trans with (2 ^ (d2 - 1) * 2 ^ t);
      [| apply Z.mul_le_mono_nonneg_r; [apply Z.pow_nonneg; lia | exact Hmy]].
    rewrite <- !Z.pow_add_r by lia.
    apply Z.pow_le_mono_r; lia. }
  destruct (Z.le_gt_cases 52 t) as [Hge | Hlt].
  - apply binary_round_aux_no_overflow with (c := 2 ^ 52) (k := t - 52);
      [lia | | lia | lia | lia].
    rewrite <- Z.pow_add_r by lia.
    replace (52 + (t - 52)) with t by lia. exact Hqt.
  - apply binary_round_aux_no_overflow with (c := 2 ^ 52) (k := 0);
      [lia | | lia | lia | lia].
    apply Z.lt_le_trans with (1 := Hqt).
    change (2 ^ 52 * 2 ^ 0) with (2 ^ 52).
    apply Z.pow_le_mono_r; lia.
Qed.

(** The double of an integer below [2 ^ 1023] is bounded. *)
Lemma binary_round_in_range (s : bool) (p : positive) :
  Zpos p < 2 ^ 1023 -> bounded (binary_round Float.prec Float.emax s p 0).
Proof.
  intros Hp.
  destruct (Z.lt_ge_cases (Zpos p) (2 ^ 53)) as [Hsmall | Hlarge].
  - destruct (binary_round_small s p Hsmall) as (m & e & -> & He & _ & Hm).
    simpl. lia.
  - pose proof (Zdigits2_upper (Zpos p) ltac:(lia)) as Hup.
    assert (HD : Zdigits2 (Zpos p) <= 1023) by (apply Zdigits2_le; lia).
    assert (HD' : 54 <= Zdigits2 (Zpos p)).
    { destruct (Z.le_gt_cases 54 (Zdigits2 (Zpos p))) as [|Hlt]; [assumption |].
      assert (2 ^ Zdigits2 (Zpos p) <= 2 ^ 53)
        by (apply Z.pow_le_mono_r; lia).
      lia. }
    unfold binary_round. rewrite fexp_eq.
    change (Zpos (digits2_pos p)) with (Zdigits2 (Zpos p)).
    unfold shl_align.
    destruct (Z.max (Zdigits2 (Zpos p) + 0 - 53) (-1074) - 0) as [|d|d] eqn:E;
      [lia | | lia].
    apply binary_round_aux_no_overflow
      with (c := 2 ^ 52) (k := Zdigits2 (Zpos p) - 52);
      [lia | | lia | lia | lia].
    rewrite <- Z.pow_add_r by lia.
    replace (52 + (Zdigits2 (Zpos p) - 52)) with (Zdigits2 (Zpos p)) by lia.
    exact Hup.
Qed.

(** ** Conversions and operators *)

Lemma of_Z_shape (z : Z) :
  let r := Float.of_Z z in
  r <> S754_nan /\ Float.sign r = (z <? 0)
  /\ (r = S754_infinity (z <? 0) \/ bounded r).
Proof.
  unfold Float.of_Z, binary_normalize. destruct z as [|p|p].
  - simpl. repeat split; [discriminate | right; exact I].
  - apply (binary_round_shape false p 0).
  - apply (binary_round_shape true p 0).
Qed.

Lemma of_Z_nonzero (z : Z) : z <> 0 -> Float.is_zero (Float.of_Z z) = false.
Proof.
  unfold Float.of_Z, binary_normalize. destruct z as [|p|p]; intros Hz.
  - congruence.
  - apply binary_round_nonzero. lia.
  - apply binary_round_nonzero. lia.
Qed.

(** [float(z)] is a bounded double of the sign of [z], or does not exist. *)
Lemma to_float_int (z : Z) :
  match Py.to_float (PyInt z) with
  | Ok x => bounded x /\ Float.sign x = (z <? 0)
            /\ (z <> 0 -> Float.is_zero x = false)
  | Raise e => e = OverflowError
  end.
Proof.
  unfold Py.to_float.
  pose proof (of_Z_shape z) as (Hnan & Hsign & Hb).
  pose proof (of_Z_nonzero z) as Hnz.
  destruct (Float.of_Z z) as [s0 | s0 | | s0 m0 e0]; try reflexivity.
  - destruct Hb as [Hb | Hb]; [discriminate | auto].
  - congruence.
  - destruct Hb as [Hb | Hb]; [discriminate | auto].
Qed.

(** [float(z)] exists for an [int] below [2 ^ 1023]. *)
Lemma to_float_in_range (z : Z) :
  Z.abs z < 2 ^ 1023 -> exists x, Py.to_float (PyInt z) = Ok x.
Proof.
  intros Hz. unfold Py.to_float.
  assert (Hb : bounded (Float.of_Z z)).
  { unfold Float.of_Z, binary_normalize. destruct z as [|p|p].
    - exact I.
    - apply binary_round_in_range. lia.
    - apply binary_round_in_range. lia. }
  destruct (Float.of_Z z); simpl in Hb; try contradiction; eauto.
Qed.

(** The exceptions of the arithmetic. *)
Lemma to_float_raises (v : value) (e : exn) :
  Py.to_float v = Raise e -> e = OverflowError.
Proof.
  destruct v as [z | x]; simpl; [| discriminate].
  destruct (Float.of_Z z); congruence.
Qed.

Lemma truediv_raises (a b : value) (e : exn) :
  Py.truediv a b = Raise e -> e = OverflowError \/ e = ZeroDivisionError.
Proof.
  assert (Hf : forall a b,
             (x ← Py.to_float a; y ← Py.to_float b;
              if Float.is_zero y then Raise ZeroDivisionError
              else mret (PyFloat (Float.div x y))) = Raise e ->
             e = OverflowError \/ e = ZeroDivisionError).
  { clear. intros a b.
    destruct (Py.to_float a) as [x | e1] eqn:Ea; simpl.
    - destruct (Py.to_float b) as [y | e2] eqn:Eb; simpl.
      + destruct (Float.is_zero y); [| discriminate].
        intros [= <-]. right. reflexivity.
      + intros [= <-]. left. apply (to_float_raises b e2 Eb).
    - intros [= <-]. left. apply (to_float_raises a e1 Ea). }
  destruct a as [x | x], b as [y | y]; try apply Hf.
  unfold Py.truediv. destruct (y =? 0); [intros [= <-]; auto |].
  destruct (Float.of_quotient x y); intros [= <-]; auto.
Qed.

Lemma mul_shape (x y : float) :
  Float.is_finite x = true -> Float.is_finite y = true ->
  let r := Float.mul x y in
  r <> S754_nan /\ Float.sign r = xorb (Float.sign x) (Float.sign y).
Proof.
  intros Hx Hy.
  destruct x as [sx | sx | | sx mx ex]; try discriminate;
    destruct y as [sy | sy | | sy my ey]; try discriminate;
    simpl; try (split; [discriminate | reflexivity]).
  pose proof (binary_round_aux_shape (xorb sx sy) (Zpos (mx * my)) (ex + ey)
                loc_Exact ltac:(lia)) as (H1 & H2 & _).
  split; assumption.
Qed.

(** The quotient of a division enters the rounding as a natural number. *)
Lemma SFdiv_core_binary_nonneg (mx my : positive) (ex ey : Z) :
  0 <= fst (fst (SFdiv_core_binary Float.prec Float.emax (Zpos mx) ex (Zpos my) ey)).
Proof.
  unfold SFdiv_core_binary.
  set (s := ex - ey - _).
  set (m' := match s with Zpos _ => Z.shiftl (Zpos mx) s | Z0 => Zpos mx | Zneg _ => 0 end).
  assert (Hm' : 0 <= m').
  { subst m'. destruct s; [lia | | lia]. apply Z.shiftl_nonneg. lia. }
  pose proof (Z_div_mod m' (Zpos my) ltac:(lia)) as Hdm.
  destruct (Z.div_eucl m' (Zpos my)) as [q r]. simpl.
  destruct Hdm as [Heq Hr]. nia.
Qed.

Lemma div_shape (x y : float) :
  x <> S754_nan -> Float.is_finite y = true -> Float.is_zero y = false ->
  let r := Float.div x y in
  r <> S754_nan /\ Float.sign r = xorb (Float.sign x) (Float.sign y).
Proof.
  intros Hx Hy Hz.
  destruct x as [sx | sx | | sx mx ex]; try congruence;
    destruct y as [sy | sy | | sy my ey]; try discriminate;
    simpl; try (split; [discriminate | reflexivity]).
  pose proof (SFdiv_core_binary_nonneg mx my ex ey) as Hq.
  destruct (SFdiv_core_binary _ _ _ _ _ _) as [[mz ez] lz]. simpl in Hq.
  pose proof (binary_round_aux_shape (xorb sx sy) mz ez lz Hq) as (H1 & H2 & _).
  split; assumption.
Qed.

Lemma div_finite_bounded_or_infinity (sx sy : bool) (mx my : positive) (ex ey : Z) :
  let r := Float.div (S754_finite sx mx ex) (S754_finite sy my ey) in
  r = S754_infinity (xorb sx sy) \/ bounded r.
Proof.
  simpl.
  pose proof (SFdiv_core_binary_nonneg mx my ex ey) as Hq.
  destruct (SFdiv_core_binary _ _ _ _ _ _) as [[mz ez] lz]. simpl in Hq.
  apply (binary_round_aux_shape (xorb sx sy) mz ez lz Hq).
Qed.

Lemma of_quotient_shape (n d : Z) :
  0 <= n -> 0 < d ->
  let r := Float.of_quotient n d in
  Float.sign r = false /\ (r = S754_infinity false \/ bounded r).
Proof.
  intros Hn Hd. unfold Float.of_quotient.
  assert (Hd' : (d <? 0) = false) by lia.
  destruct n as [|p|p]; [| | lia].
  - rewrite Hd'. simpl. split; [reflexivity | right; exact I].
  - rewrite Hd'. change (Zpos p <? 0) with false.
    pose proof (div_finite_bounded_or_infinity false false
                  (Z.to_pos (Z.abs (Zpos p))) (Z.to_pos (Z.abs d)) 0 0) as Hb.
    pose proof (div_shape (S754_finite false (Z.to_pos (Z.abs (Zpos p))) 0)
                  (S754_finite false (Z.to_pos (Z.abs d)) 0)
                  ltac:(discriminate) eq_refl eq_refl) as [_ Hs].
    split; [exact Hs | exact Hb].
Qed.

Lemma nonneg_of_sign (x : float) :
  x <> S754_nan -> Float.sign x = false -> Float.nonneg x = true.
Proof. destruct x as [s | s | | s m e]; simpl; intros; subst; (congruence || reflexivity). Qed.

Lemma pos_cases (y : float) :
  Float.pos y = true ->
  y = S754_infinity false \/ exists m e, y = S754_finite false m e.
Proof.
  destruct y as [s | [] | | [] m e]; try discriminate; intros _; eauto.
Qed.

Lemma mul_float_r (a : value) (L : float) :
  Py.mul a (PyFloat L)
  = match Py.to_float a with
    | Ok x => Ok (PyFloat (Float.mul x L))
    | Raise e => Raise e
    end.
Proof. destruct a; reflexivity. Qed.

Lemma LEN_STEP_step (c : class) : LEN_STEP c = PyFloat (step c).
Proof. destruct c; reflexivity. Qed.

Lemma get_distance_eq (self : instance) :
  get_distance self
  = match Py.to_float (action self) with
    | Ok x => Ok (PyFloat (Float.div (Float.mul x (step (type self))) thousand))
    | Raise e => Raise e
    end.
Proof.
  change (get_distance self)
    with (Py.mul (action self) (LEN_STEP (type self))
          ≫= λ x, Py.truediv x M_IN_KM).
  rewrite LEN_STEP_step, mul_float_r.
  destruct (Py.to_float (action self)); reflexivity.
Qed.

Lemma base_mean_speed_eq (self : instance) :
  type self <> Swimming ->
  get_mean_speed self
  = (get_distance self ≫= λ d, Py.truediv d (duration self)).
Proof. destruct self; intros H; [reflexivity .. | contradiction]. Qed.

Lemma swimming_pool_speed (l c : Z) :
  0 <= l -> 0 <= c ->
  match Py.truediv (PyInt (l * c)) M_IN_KM with
  | Ok (PyFloat d) => bounded d /\ Float.sign d = false
  | Ok (PyInt _) => False
  | Raise e => e = OverflowError
  end.
Proof.
  intros Hl Hc. unfold Py.truediv, M_IN_KM.
  change (1000 =? 0) with false. cbv iota.
  pose proof (of_quotient_shape (l * c) 1000 ltac:(nia) ltac:(lia)) as [Hs Hb].
  destruct (Float.of_quotient (l * c) 1000) as [s | s | | s m e];
    simpl in Hs; subst; try reflexivity.
  - split; [exact I | reflexivity].
  - destruct Hb as [Hb | Hb]; [discriminate | contradiction].
  - destruct Hb as [Hb | Hb]; [discriminate | split; [exact Hb | reflexivity]].
Qed.

(** ** Operators with a [float] operand *)

Lemma to_float_is_zero (v : value) (x : float) :
  Py.to_float v = Ok x -> Float.is_zero x = is_zero_number v.
Proof.
  destruct v as [z | y]; cbn [is_zero_number].
  - intros H. destruct (Z.eqb_spec z 0) as [-> | Hz].
    + vm_compute in H. injection H as <-. reflexivity.
    + pose proof (to_float_int z) as Hx. rewrite H in Hx.
      apply Hx, Hz.
  - intros [= ->]. reflexivity.
Qed.

Lemma float_op_float_l (op : float -> float -> float) (x : float) (b : value) :
  Py.float_op op (PyFloat x) b
  = match Py.to_float b with
    | Ok y => Ok (PyFloat (op x y))
    | Raise e => Raise e
    end.
Proof. unfold Py.float_op. cbn [Py.to_float mbind result_bind]. reflexivity. Qed.

Lemma float_op_float_r (op : float -> float -> float) (a : value) (y : float) :
  Py.float_op op a (PyFloat y)
  = match Py.to_float a with
    | Ok x => Ok (PyFloat (op x y))
    | Raise e => Raise e
    end.
Proof.
  unfold Py.float_op. destruct (Py.to_float a); reflexivity.
Qed.

Lemma truediv_float_l (x : float) (b : value) :
  Py.truediv (PyFloat x) b
  = match Py.to_float b with
    | Ok y => if is_zero_number b then Raise ZeroDivisionError
              else Ok (PyFloat (Float.div x y))
    | Raise e => Raise e
    end.
Proof.
  unfold Py.truediv. cbn [Py.to_float mbind result_bind].
  destruct (Py.to_float b) as [y | e] eqn:E; cbn [mbind result_bind];
    [| destruct b; reflexivity].
  rewrite <- (to_float_is_zero b y E). destruct b; reflexivity.
Qed.

Lemma positive_finite_float (v : value) :
  positive_finite v = true ->
  exists y : float,
    Py.to_float v = Ok y /\ Float.is_finite y = true
    /\ Float.is_zero y = false /\ Float.sign y = false.
Proof.
  unfold positive_finite, finite_number. intros H.
  apply andb_true_iff in H as [Hpos Hfin].
  destruct v as [z | y]; cbn [Py.pos] in Hpos.
  - pose proof (to_float_int z) as Hz.
    destruct (Py.to_float (PyInt z)) as [y |]; [| discriminate].
    destruct Hz as (_ & Hs & Hnz). exists y.
    split; [reflexivity |]. split; [exact Hfin |].
    split; [apply Hnz; lia |]. rewrite Hs. lia.
  - exists y. cbn [Py.to_float] in *. split; [reflexivity |].
    destruct (pos_cases y Hpos) as [-> | (m & e & ->)]; [discriminate |].
    repeat split.
Qed.

(** ** Floor division *)

Lemma to_Q_positive (m : positive) (e : Z) :
  (0 < Float.to_Q (S754_finite false m e))%Q.
Proof.
  unfold Float.to_Q. destruct e as [|p|p].
  - reflexivity.
  - unfold Qlt, inject_Z. simpl Qnum. simpl Qden.
    assert (0 < 2 ^ Zpos p) by (apply Z.pow_pos_nonneg; lia). nia.
  - reflexivity.
Qed.

Lemma sub_self (s : bool) (m : positive) (e : Z) :
  Float.sub (S754_finite s m e) (S754_finite s m e) = S754_zero false.
Proof. unfold Float.sub, SFsub. rewrite Z.sub_diag. reflexivity. Qed.

(** The remainder of a double by a larger one is the double itself. *)
Lemma fmod_smaller (sx sy : bool) (mx my : positive) (ex ey : Z) :
  (Qabs (Float.to_Q (S754_finite sx mx ex))
   < Qabs (Float.to_Q (S754_finite sy my ey)))%Q ->
  Float.fmod (S754_finite sx mx ex) (S754_finite sy my ey)
  = S754_finite sx mx ex.
Proof.
  intros H.
  assert (Hc : (Qabs (Float.to_Q (S754_finite sx mx ex))
                ?= Qabs (Float.to_Q (S754_finite sy my ey)))%Q = Lt)
    by (apply Qlt_alt; exact H).
  unfold Float.fmod. rewrite Hc. reflexivity.
Qed.

(** A double other than zero, floor-divided by one that is larger in
    magnitude, gives [0.0] when the signs agree and [-1.0] when they
    differ. *)
Lemma floordiv_smaller (sx sy : bool) (mx my : positive) (ex ey : Z) :
  (Qabs (Float.to_Q (S754_finite sx mx ex))
   < Qabs (Float.to_Q (S754_finite sy my ey)))%Q ->
  Float.floordiv (S754_finite sx mx ex) (S754_finite sy my ey)
  = if xorb sx sy then Float.of_Z (-1) else Float.zero.
Proof.
  intros H. unfold Float.floordiv.
  rewrite (fmod_smaller sx sy mx my ex ey H), sub_self.
  pose proof (div_shape (S754_finite sx mx ex) (S754_finite sy my ey)
                ltac:(discriminate) eq_refl eq_refl) as [_ Hs].
  cbv zeta in Hs.
  change (Float.div (S754_zero false) (S754_finite sy my ey))
    with (S754_zero sy).
  destruct sx, sy; cbn [Float.sign xorb] in Hs;
    cbn [Float.is_zero negb andb SFltb SFcompare Float.zero Bool.eqb xorb];
    try (rewrite Hs; reflexivity);
    vm_compute; reflexivity.
Qed.

Lemma Qabs_to_Q_nonneg (x : float) :
  Float.sign x = false -> (Qabs (Float.to_Q x) == Float.to_Q x)%Q.
Proof.
  intros Hs. apply Qabs_pos.
  destruct x as [s | s | | s m e]; simpl in Hs; subst; try discriminate.
  apply Qlt_le_weak, to_Q_positive.
Qed.

(** A double that is not negative, floor-divided by a larger one, gives
    [0.0]: so does the square of the speed of a walk over a height, as
    long as the square is below the height. *)
Lemma floordiv_below_divisor (x : float) (my : positive) (ey : Z) :
  Float.is_finite x = true -> Float.sign x = false ->
  (Float.to_Q x < Float.to_Q (S754_finite false my ey))%Q ->
  Float.floordiv x (S754_finite false my ey) = Float.zero.
Proof.
  intros Hf Hs Hlt.
  destruct x as [sx | sx | | sx mx ex]; try discriminate; simpl in Hs; subst.
  - reflexivity.
  - rewrite floordiv_smaller; [reflexivity |].
    rewrite !Qabs_to_Q_nonneg by reflexivity. exact Hlt.
Qed.

Lemma floordiv_below_height (x : float) (my : positive) (ey : Z) :
  Float.is_finite x = true -> Float.sign x = false ->
  (Float.to_Q x < Float.to_Q (S754_finite false my ey))%Q ->
  (PyFloat x // PyFloat (S754_finite false my ey))%py = Ok 0.0%py.
Proof.
  intros Hf Hs Hlt. unfold binop, const. simpl.
  rewrite (floordiv_below_divisor x my ey Hf Hs Hlt). reflexivity.
Qed.

(** ** When the distance and the mean speed exist *)

Lemma to_float_defined (v : value) :
  int_in_range v = true -> exists x, Py.to_float v = Ok x.
Proof.
  destruct v as [z | x]; simpl; intros H; [| eauto].
  apply to_float_in_range. lia.
Qed.

Lemma of_quotient_1000_in_range (n : Z) :
  0 <= n < 2 ^ 1023 ->
  exists d, Py.truediv (PyInt n) M_IN_KM = Ok (PyFloat d).
Proof.
  intros Hn. unfold Py.truediv, M_IN_KM.
  change (1000 =? 0) with false. cbv iota.
  assert (Hb : bounded (Float.of_quotient n 1000)).
  { unfold Float.of_quotient. destruct n as [|p|p]; [exact I | | lia].
    apply div_finite_bounded.
    change (Z.to_pos (Z.abs (Zpos p))) with p.
    assert (Zdigits2 (Zpos p) <= 1023) by (apply Zdigits2_le; lia).
    change (Zdigits2 (Zpos (Z.to_pos (Z.abs 1000)))) with 10. lia. }
  destruct (Float.of_quotient n 1000); simpl in Hb; try contradiction; eauto.
Qed.

Lemma get_distance_raises (self : instance) (e : exn) :
  get_distance self = Raise e -> e = OverflowError.
Proof.
  rewrite get_distance_eq.
  destruct (Py.to_float (action self)) as [x | e'] eqn:E; [discriminate |].
  intros [= <-]. apply (to_float_raises _ _ E).
Qed.

Lemma base_mean_speed_raises (self : instance) (e : exn) :
  type self <> Swimming ->
  get_mean_speed self = Raise e ->
  (get_distance self = Raise e \/ exists d, get_distance self = Ok d)
  /\ (e = OverflowError \/ e = ZeroDivisionError).
Proof.
  intros Hbase. rewrite base_mean_speed_eq by assumption.
  destruct (get_distance self) as [d | e'] eqn:E; simpl.
  - intros H. split; [eauto | apply (truediv_raises _ _ _ H)].
  - intros [= <-]. split; [auto |]. left. apply (get_distance_raises _ _ E).
Qed.

(** ** The format [.3f] *)

Lemma digit_is_digit (d : Z) : 0 <= d <= 9 -> is_digit (Format.digit d) = true.
Proof.
  intros H. unfold Format.digit, is_digit.
  rewrite N_ascii_embedding by lia.
  apply andb_true_iff; split; apply N.leb_le; lia.
Qed.

Lemma digit_not_special (c : ascii) :
  is_digit c = true -> Ascii.eqb c "-" = false /\ Ascii.eqb c "." = false.
Proof.
  intros H. split; apply Ascii.eqb_neq; intros ->; discriminate.
Qed.

Lemma string_of_uint_all_digits (u : Decimal.uint) :
  all_digits (NilEmpty.string_of_uint u) = true.
Proof. induction u; simpl; auto. Qed.

Lemma digits_head (n : Z) :
  exists c s, Format.digits n = String c s
              /\ is_digit c = true /\ all_digits s = true.
Proof.
  unfold Format.digits, NilZero.string_of_uint.
  destruct (N.to_uint (Z.to_N n)) as [|u|u|u|u|u|u|u|u|u|u];
    simpl; eexists _, _; (split; [reflexivity |]); split;
    try reflexivity; apply string_of_uint_all_digits.
Qed.

Lemma digits_point_three_app (s t : string) :
  all_digits s = true -> three_digits t = true ->
  digits_point_three (s +:+ String "." t) = true.
Proof.
  intros Hs Ht. induction s as [|c s IH]; simpl.
  - exact Ht.
  - simpl in Hs. apply andb_true_iff in Hs as [Hc Hs].
    rewrite Hc. apply IH, Hs.
Qed.

(** Whatever the sign and the thousandths, [fixed3] writes a number with
    three decimal places. *)
Lemma fixed3_three_decimals (sign : bool) (n : Z) :
  three_decimals (Format.fixed3 sign n) = true.
Proof.
  unfold Format.fixed3.
  destruct (digits_head (n `div` 1000)) as (c & s & -> & Hc & Hs).
  set (t := String (Format.digit ((n `div` 100) `mod` 10)) _).
  assert (Ht : three_digits t = true).
  { assert (Hmod : forall z, 0 <= z `mod` 10 <= 9)
      by (intros z; pose proof (Z.mod_pos_bound z 10); lia).
    subst t. cbn [three_digits].
    rewrite !digit_is_digit by apply Hmod. reflexivity. }
  pose proof (digits_point_three_app s t Hs Ht) as Hd.
  destruct (digit_not_special c Hc) as [Hminus _].
  destruct sign.
  - change (is_digit c && digits_point_three (s +:+ String "." t) = true).
    rewrite Hc. exact Hd.
  - change (three_decimals (String c (s +:+ String "." t)) = true).
    unfold three_decimals. cbv beta iota zeta.
    rewrite Hminus, Hc. exact Hd.
Qed.

Lemma f3_finite (v : value) :
  finite_number v = true ->
  exists s, Format.f3 v = Ok s /\ three_decimals s = true.
Proof.
  unfold finite_number, Format.f3. intros H.
  destruct (Py.to_float v) as [x | e]; [| discriminate].
  exists (Format.float_f3 x). split; [reflexivity |].
  destruct x; try discriminate; apply fixed3_three_decimals.
Qed.

(** * Properties *)

(** ** The demonstration workouts *)

Lemma new_demo :
  new Swimming [720%py; 1%py; 80%py; 25%py; 40%py] = Ok demo_swimming
  /\ new Running [15000%py; 1%py; 75%py] = Ok demo_running
  /\ new SportsWalking [9000%py; 1%py; 75%py; 180%py] = Ok demo_walking.
Proof. repeat split. Qed.

(** ** Running *)

(** C1, the example as the specification gives it: the calories of the
    running workout [15000, 1, 75] are 699.75, which is not 701.25, nor
    within the rounding of doubles of it. *)
Lemma running_demo_calories_not_701_25 :
  get_spent_calories demo_running = Ok 699.75%py
  /\ get_spent_calories demo_running <> Ok 701.25%py
  /\ ~ within_rounding 699.75%py 701.25.
Proof.
  split; [vm_compute; reflexivity |].
  split; [vm_compute; discriminate |].
  intros [_ H]. vm_compute in H. apply H. reflexivity.
Qed.

(** C1, amended.  For every running workout the calories are
    [(18 * mean_speed - 20) * weight / 1000 * duration * 60], evaluated
    from left to right, where the mean speed is the one of the base class,
    the distance [action * 0.65 / 1000] over the duration; a fault of the
    mean speed is the fault of the calories.  For [15000, 1, 75] the mean
    speed is 9.75 and the calories are 699.75, printed as 699.750. *)
Theorem Running_get_spent_calories_formula {libm : Libm} :
  (forall action duration weight : value,
      let self := RunningObject action duration weight in
      get_spent_calories self
      = ((18 * get_mean_speed self - 20) * weight / 1000 * duration * 60)%py
      /\ get_mean_speed self = (get_distance self / duration)%py
      /\ get_distance self = (action * 0.65 / 1000)%py)
  /\ get_mean_speed demo_running = Ok 9.75%py
  /\ get_spent_calories demo_running = Ok 699.75%py
  /\ (x ← get_spent_calories demo_running; Format.f3 x) = Ok "699.750"%string.
Proof.
  split; [intros a d w; repeat split |].
  repeat split; vm_compute; reflexivity.
Qed.

(** ** Walking *)

Lemma to_Q_finite (s : bool) (m : positive) (e : Z) :
  Float.to_Q (S754_finite s m e)
  = if s then (- Float.to_Q (S754_finite false m e))%Q
    else Float.to_Q (S754_finite false m e).
Proof. destruct s; reflexivity. Qed.

(** The quotient of a double by one that is larger in magnitude is
    between 0 and 1 when the signs agree, between -1 and 0 when they
    differ. *)
Lemma quotient_of_smaller (sx sy : bool) (mx my : positive) (ex ey : Z) :
  (Qabs (Float.to_Q (S754_finite sx mx ex))
   < Qabs (Float.to_Q (S754_finite sy my ey)))%Q ->
  is_floor (if xorb sx sy then -1 else 0)
    (Float.to_Q (S754_finite sx mx ex) / Float.to_Q (S754_finite sy my ey)).
Proof.
  rewrite (to_Q_finite sx), (to_Q_finite sy).
  pose proof (to_Q_positive mx ex) as Ha.
  pose proof (to_Q_positive my ey) as Hb.
  set (a := Float.to_Q (S754_finite false mx ex)) in *.
  set (b := Float.to_Q (S754_finite false my ey)) in *.
  assert (Hnz : ~ (b == 0)%Q) by (intros E; rewrite E in Hb; discriminate).
  assert (Habs : forall s : bool,
             (Qabs (if s then - a else a) == a)%Q
             /\ (Qabs (if s then - b else b) == b)%Q).
  { intros []; rewrite ?Qabs_opp; split; apply Qabs_pos, Qlt_le_weak;
      assumption. }
  intros H.
  rewrite (proj1 (Habs sx)), (proj2 (Habs sy)) in H.
  assert (H0 : (0 <= a / b)%Q)
    by (apply Qle_shift_div_l; [exact Hb |];
        rewrite Qmult_0_l; apply Qlt_le_weak, Ha).
  assert (H0' : (0 < a / b)%Q)
    by (apply Qlt_shift_div_l; [exact Hb |]; rewrite Qmult_0_l; exact Ha).
  assert (H1 : (a / b < 1)%Q)
    by (apply Qlt_shift_div_r; [exact Hb |]; rewrite Qmult_1_l; exact H).
  unfold is_floor.
  destruct sx, sy; cbn [xorb].
  - assert (E : (- a / - b == a / b)%Q) by (field; exact Hnz).
    rewrite E.
    split; [exact H0 | exact H1].
  - assert (E : (- a / b == - (a / b))%Q) by (field; exact Hnz).
    rewrite E.
    change (inject_Z (-1)) with (- (1))%Q. change (inject_Z (-1 + 1)) with 0%Q.
    split; [apply Qopp_le_compat, Qlt_le_weak, H1 |].
    apply (Qopp_lt_compat 0 (a / b)), H0'.
  - assert (E : (a / - b == - (a / b))%Q) by (field; exact Hnz).
    rewrite E.
    change (inject_Z (-1)) with (- (1))%Q. change (inject_Z (-1 + 1)) with 0%Q.
    split; [apply Qopp_le_compat, Qlt_le_weak, H1 |].
    apply (Qopp_lt_compat 0 (a / b)), H0'.
  - split; [exact H0 | exact H1].
Qed.

(** The example does not depend on the last bit of the square: whatever
    double below 180 stands for the square of the speed, the calories of
    [9000, 1, 75, 180] are the same. *)
Lemma walking_demo_whatever_the_square (x : float) :
  Float.is_finite x = true -> Float.sign x = false ->
  (Float.to_Q x < 180)%Q ->
  (PyFloat x // 180)%py = Ok 0.0%py
  /\ ((0.035 * 75 + (PyFloat x // 180) * 0.029 * 75) * 1 * 60)%py
     = Ok 157.50000000000003%py.
Proof.
  intros Hf Hs Hlt.
  change (PyFloat x // 180)%py
    with (Ok (PyFloat (Float.floordiv x
                         (S754_finite false 6333186975989760 (-45))))).
  rewrite floordiv_below_divisor;
    [split; vm_compute; reflexivity | assumption .. |].
  apply Qlt_le_trans with (1 := Hlt). unfold Qle. simpl. lia.
Qed.




(** ** Swimming *)

(** C3. The mean speed of a swimming workout is
    [length_pool * count_pool / 1000 / duration]; two swimming workouts
    with the same pool length, pool count and duration have the same
    mean speed, whatever their stroke counts and weights. *)
Theorem Swimming_get_mean_speed_pool_only :
  forall action duration weight length_pool count_pool : value,
    get_mean_speed
      (SwimmingObject action duration weight length_pool count_pool)
    = (length_pool * count_pool / 1000 / duration)%py
    /\ forall action' weight' : value,
        get_mean_speed
          (SwimmingObject action' duration weight' length_pool count_pool)
        = get_mean_speed
            (SwimmingObject action duration weight length_pool count_pool).
Proof. intros a d w lp cp. split; [| intros a' w']; reflexivity. Qed.

(** C4. The calories of a swimming workout are
    [(mean_speed + 1.1) * 2 * weight], with the mean speed of the pool;
    for [720, 1, 80, 25, 40] the mean speed is 1.0 and the calories are
    336.0. *)
Theorem Swimming_get_spent_calories_formula {libm : Libm} :
  (forall action duration weight length_pool count_pool : value,
      let self :=
        SwimmingObject action duration weight length_pool count_pool in
      get_spent_calories self
      = ((get_mean_speed self + 1.1) * 2 * weight)%py
      /\ get_mean_speed self
         = (length_pool * count_pool / 1000 / duration)%py)
  /\ get_mean_speed demo_swimming = Ok 1.0%py
  /\ get_spent_calories demo_swimming = Ok 336.0%py.
Proof.
  split; [intros a d w lp cp; split; reflexivity |].
  split; vm_compute; reflexivity.
Qed.

(** C10. The distance of a swimming workout comes from the stroke count,
    [action * 1.38 / 1000], and its mean speed from the pool; the two need
    not agree: for [720, 1, 80, 25, 40] the mean speed, 1.0, is not the
    distance over the duration, 0.9935999999999999. *)
Theorem Swimming_speed_is_not_distance_over_duration :
  (forall action duration weight length_pool count_pool : value,
      let self :=
        SwimmingObject action duration weight length_pool count_pool in
      get_distance self = (action * 1.38 / 1000)%py
      /\ get_mean_speed self
         = (length_pool * count_pool / 1000 / duration)%py)
  /\ (get_distance demo_swimming / duration demo_swimming)%py
     = Ok 0.9935999999999999%py
  /\ get_mean_speed demo_swimming
     <> (get_distance demo_swimming / duration demo_swimming)%py.
Proof.
  split; [intros a d w lp cp; split; reflexivity |].
  split; vm_compute; [reflexivity | discriminate].
Qed.

(** ** Distance *)

(** C5, as the specification states it: the distance of the running
    workout [15000, 1, 75] is 9.75, not [15000 * 0.65], which is 9750. *)
Lemma distance_is_not_count_times_step :
  get_distance demo_running = Ok 9.75%py
  /\ (15000 * 0.65)%py = Ok 9750.0%py
  /\ get_distance demo_running <> (15000 * 0.65)%py.
Proof.
  split; [vm_compute; reflexivity |].
  split; [vm_compute; reflexivity | vm_compute; discriminate].
Qed.

(** C5, amended.  The distance in kilometres is the count of steps or
    strokes times the length of one, which is in metres, over the 1000
    metres of a kilometre: [action * LEN_STEP / 1000], where [LEN_STEP] is
    0.65 for the base class, running and walking and 1.38 for swimming.
    The running workout [15000, 1, 75] covers 9.75 km. *)
Theorem get_distance_formula :
  (forall self : instance,
      get_distance self
      = match type self with
        | Swimming => (action self * 1.38 / 1000)%py
        | _ => (action self * 0.65 / 1000)%py
        end)
  /\ get_distance demo_running = Ok 9.75%py.
Proof.
  split; [intros [a d w | a d w | a d w h | a d w lp cp]; reflexivity |].
  vm_compute; reflexivity.
Qed.

(** ** Signs *)

Lemma mul_nonneg (x y : float) :
  Float.is_finite x = true -> Float.is_finite y = true ->
  Float.nonneg x = true -> Float.nonneg y = true ->
  Float.nonneg (Float.mul x y) = true.
Proof.
  intros Hfx Hfy Hx Hy.
  destruct x as [sx | sx | | sx mx ex]; try discriminate;
    destruct y as [sy | sy | | sy my ey]; try discriminate;
    try reflexivity.
  destruct sx, sy; try discriminate.
  destruct (mul_shape (S754_finite false mx ex) (S754_finite false my ey)
              eq_refl eq_refl) as [H1 H2].
  apply nonneg_of_sign; assumption.
Qed.

Lemma div_nonneg (x y : float) :
  Float.nonneg x = true ->
  Float.is_finite y = true -> Float.is_zero y = false ->
  Float.sign y = false ->
  Float.nonneg (Float.div x y) = true.
Proof.
  intros Hx Hfy Hzy Hsy.
  destruct y as [sy | sy | | sy my ey]; try discriminate.
  simpl in Hsy. subst sy.
  destruct x as [sx | [] | | [] mx ex]; try discriminate; try reflexivity.
  destruct (div_shape (S754_finite false mx ex) (S754_finite false my ey)
              ltac:(discriminate) eq_refl eq_refl) as [H1 H2].
  apply nonneg_of_sign; assumption.
Qed.

(** A finite number that is not negative has a finite double that is not
    negative. *)
Lemma nonneg_finite_float (v : value) :
  finite_number v = true -> Py.nonneg v = true ->
  exists x : float,
    Py.to_float v = Ok x /\ Float.is_finite x = true
    /\ Float.nonneg x = true.
Proof.
  unfold finite_number. intros Hf Hn.
  destruct v as [z | x]; [| exists x; auto].
  pose proof (to_float_int z) as Hz.
  destruct (Py.to_float (PyInt z)) as [x |]; [| discriminate].
  destruct Hz as (Hb & Hs & _). exists x.
  split; [reflexivity |]. split; [exact Hf |].
  apply nonneg_of_sign.
  - destruct x; simpl in Hb; try contradiction; discriminate.
  - rewrite Hs. simpl in Hn. lia.
Qed.

(** A double that is not negative over a positive finite number. *)
Lemma truediv_positive (d : float) (v : value) :
  Float.nonneg d = true -> positive_finite v = true ->
  exists q : float,
    Py.truediv (PyFloat d) v = Ok (PyFloat q) /\ Float.nonneg q = true.
Proof.
  intros Hd Hv.
  destruct (positive_finite_float v Hv) as (y & Ey & Hfin & Hnz & Hsy).
  rewrite truediv_float_l, Ey, <- (to_float_is_zero v y Ey), Hnz.
  exists (Float.div d y). split; [reflexivity |].
  apply div_nonneg; assumption.
Qed.

Lemma get_distance_nonneg (self : instance) :
  finite_number (action self) = true -> Py.nonneg (action self) = true ->
  exists d : float,
    get_distance self = Ok (PyFloat d) /\ Float.nonneg d = true.
Proof.
  intros Hf Hn. rewrite get_distance_eq.
  destruct (nonneg_finite_float _ Hf Hn) as (x & -> & Hxf & Hxn).
  eexists. split; [reflexivity |].
  apply div_nonneg; try reflexivity.
  apply mul_nonneg; try assumption; destruct (type self); reflexivity.
Qed.

(** The length swum in the pool, in kilometres. *)
Lemma pool_nonneg (length_pool count_pool : value) :
  Py.nonneg length_pool = true -> Py.nonneg count_pool = true ->
  match length_pool, count_pool with
  | PyInt l, PyInt c => int_in_range (PyInt (l * c)) = true
  | _, _ =>
      finite_number length_pool = true /\ finite_number count_pool = true
  end ->
  exists q : float,
    (length_pool * count_pool / M_IN_KM)%py = Ok (PyFloat q)
    /\ Float.nonneg q = true.
Proof.
  intros Hl Hc Hfin.
  assert (Hfloat :
            finite_number length_pool = true ->
            finite_number count_pool = true ->
            exists q : float,
              (Py.float_op Float.mul length_pool count_pool
               ≫= λ p, Py.truediv p M_IN_KM) = Ok (PyFloat q)
              /\ Float.nonneg q = true).
  { intros Hfl Hfc.
    destruct (nonneg_finite_float _ Hfl Hl) as (x & Ex & Hxf & Hxn).
    destruct (nonneg_finite_float _ Hfc Hc) as (y & Ey & Hyf & Hyn).
    unfold Py.float_op. rewrite Ex, Ey. cbn [mbind result_bind mret result_ret].
    apply truediv_positive; [| reflexivity].
    apply mul_nonneg; assumption. }
  destruct length_pool as [l | x], count_pool as [c | y];
    [| exact (Hfloat (proj1 Hfin) (proj2 Hfin)) ..].
  clear Hfloat. cbn [Py.nonneg int_in_range] in Hl, Hc, Hfin.
  change (PyInt l * PyInt c / M_IN_KM)%py
    with (Py.truediv (PyInt (l * c)) M_IN_KM).
  pose proof (swimming_pool_speed l c ltac:(lia) ltac:(lia)) as Hp.
  destruct (of_quotient_1000_in_range (l * c) ltac:(nia)) as [q Eq].
  rewrite Eq in Hp. destruct Hp as [Hb Hs].
  exists q. split; [exact Eq |].
  apply nonneg_of_sign; [| exact Hs].
  destruct q; simpl in Hb; try contradiction; discriminate.
Qed.

(** C9, as the specification states it: a swimming workout whose inputs
    are all at least zero and whose duration is positive, with a pool
    of infinite length swum zero times, has a mean speed that is a NaN,
    which is not at least zero; and a run of [2 ^ 1024] steps has no
    distance, the count having no double. *)
Lemma infinite_pool_length_gives_nan :
  forallb Py.nonneg (attributes unbounded_pool) = true
  /\ Py.pos (duration unbounded_pool) = true
  /\ get_mean_speed unbounded_pool = Ok (PyFloat S754_nan)
  /\ Py.nonneg (PyFloat S754_nan) = false
  /\ forallb Py.nonneg (attributes endless_run) = true
  /\ Py.pos (duration endless_run) = true
  /\ get_distance endless_run = Raise OverflowError
  /\ get_mean_speed endless_run = Raise OverflowError.
Proof. repeat split; vm_compute; reflexivity. Qed.

(** C9, amended.  For every workout whose counts are not negative and
    finite and whose duration is positive and finite, the distance and
    the mean speed exist and are not negative.  The counts are the
    number of steps or strokes and, for swimming, the length of the pool
    and the number of times it was swum: [int]s or [float]s, an [int]
    being finite when it has a double, and the product of two [int]s of
    the pool when it is below [2 ^ 1023].  The weight and the height
    play no part. *)
Theorem distance_and_mean_speed_nonneg :
  forall self : instance,
    counts_nonneg self = true ->
    counts_finite self = true ->
    positive_finite (duration self) = true ->
    exists distance speed : value,
      get_distance self = Ok distance
      /\ get_mean_speed self = Ok speed
      /\ Py.nonneg distance = true
      /\ Py.nonneg speed = true.
Proof.
  intros self Hnn Hfin Hd.
  unfold counts_nonneg in Hnn. unfold counts_finite in Hfin.
  apply andb_true_iff in Hnn as [Hna Hnp].
  apply andb_true_iff in Hfin as [Hfa Hfp].
  destruct (get_distance_nonneg self Hfa Hna) as (distance & Edist & Hdist).
  exists (PyFloat distance).
  assert (Hbase : type self <> Swimming ->
                  exists speed : value,
                    get_mean_speed self = Ok speed
                    /\ Py.nonneg speed = true).
  { intros Hb. rewrite base_mean_speed_eq, Edist by exact Hb.
    destruct (truediv_positive distance (duration self) Hdist Hd)
      as (q & Eq & Hq).
    exists (PyFloat q). split; assumption. }
  destruct self as [a d w | a d w | a d w h | a d w lp cp];
    try (destruct (Hbase ltac:(discriminate)) as (speed & Es & Hs);
         exists speed; repeat split; assumption).
  clear Hbase. cbn [duration] in Hd.
  apply andb_true_iff in Hnp as [Hnl Hnc].
  assert (Hpool : match lp, cp with
                  | PyInt l, PyInt c => int_in_range (PyInt (l * c)) = true
                  | _, _ => finite_number lp = true
                            /\ finite_number cp = true
                  end).
  { destruct lp, cp; try exact Hfp;
      apply andb_true_iff in Hfp; exact Hfp. }
  destruct (pool_nonneg lp cp Hnl Hnc Hpool) as (p & Ep & Hp).
  destruct (truediv_positive p d Hp Hd) as (q & Eq & Hq).
  exists (PyFloat q). repeat split; try assumption.
  change (get_mean_speed (SwimmingObject a d w lp cp))
    with ((lp * cp / M_IN_KM)%py ≫= λ x, Py.truediv x d).
  rewrite Ep. exact Eq.
Qed.

Lemma distance_and_mean_speed_nonneg_witness :
  exists distance speed : value,
    get_distance (SwimmingObject 720.0%py 0.5%py 80%py 25%py 40%py)
    = Ok distance
    /\ get_mean_speed (SwimmingObject 720.0%py 0.5%py 80%py 25%py 40%py)
       = Ok speed
    /\ Py.nonneg distance = true
    /\ Py.nonneg speed = true.
Proof.
  apply (distance_and_mean_speed_nonneg
           (SwimmingObject 720.0%py 0.5%py 80%py 25%py 40%py));
    reflexivity.
Defined.

(** ** The report *)

(** C6, the template as the specification words it: the report of the
    running workout [15000, 1, 75] is not the English sentence. *)
Lemma report_is_not_in_english :
  (info ← show_training_info demo_running; InfoMessage.get_message info)
  <> (info ← show_training_info demo_running; spec_get_message info).
Proof. vm_compute. discriminate. Qed.

(** C6, amended.  The labels of the report are in Russian.  For every
    message whose four numbers are finite, [get_message] returns the
    template below, filled in the order duration, distance, speed,
    calories with the numbers as [.3f] formats them, each with exactly
    three decimal places. *)
Theorem get_message_template :
  forall self : InfoMessage.t,
    finite_number (InfoMessage.duration self) = true ->
    finite_number (InfoMessage.distance self) = true ->
    finite_number (InfoMessage.speed self) = true ->
    finite_number (InfoMessage.calories self) = true ->
    exists duration distance speed calories : string,
      Format.f3 (InfoMessage.duration self) = Ok duration
      /\ Format.f3 (InfoMessage.distance self) = Ok distance
      /\ Format.f3 (InfoMessage.speed self) = Ok speed
      /\ Format.f3 (InfoMessage.calories self) = Ok calories
      /\ three_decimals duration = true
      /\ three_decimals distance = true
      /\ three_decimals speed = true
      /\ three_decimals calories = true
      /\ InfoMessage.get_message self
         = Ok ("Тип тренировки: " +:+ InfoMessage.training_type self
               +:+ "; Длительность: " +:+ duration
               +:+ " ч.; Дистанция: " +:+ distance
               +:+ " км; Ср. скорость: " +:+ speed
               +:+ " км/ч; Потрачено ккал: " +:+ calories +:+ ".")%string.
Proof.
  intros self H1 H2 H3 H4.
  destruct (f3_finite _ H1) as (s1 & E1 & T1).
  destruct (f3_finite _ H2) as (s2 & E2 & T2).
  destruct (f3_finite _ H3) as (s3 & E3 & T3).
  destruct (f3_finite _ H4) as (s4 & E4 & T4).
  exists s1, s2, s3, s4. repeat (split; [assumption |]).
  unfold InfoMessage.get_message. rewrite E1, E2, E3, E4. reflexivity.
Qed.

Lemma get_message_template_witness :
  exists duration distance speed calories : string,
    Format.f3 1%py = Ok duration
    /\ Format.f3 9.75%py = Ok distance
    /\ Format.f3 9.75%py = Ok speed
    /\ Format.f3 699.75%py = Ok calories
    /\ three_decimals duration = true
    /\ three_decimals distance = true
    /\ three_decimals speed = true
    /\ three_decimals calories = true
    /\ InfoMessage.get_message
         (InfoMessage.Build "Running" 1%py 9.75%py 9.75%py 699.75%py)
       = Ok ("Тип тренировки: " +:+ "Running"
             +:+ "; Длительность: " +:+ duration
             +:+ " ч.; Дистанция: " +:+ distance
             +:+ " км; Ср. скорость: " +:+ speed
             +:+ " км/ч; Потрачено ккал: " +:+ calories +:+ ".")%string.
Proof.
  apply (get_message_template
           (InfoMessage.Build "Running" 1%py 9.75%py 9.75%py 699.75%py));
    reflexivity.
Defined.

(** ** Dispatch *)

Lemma trainings_lookup_unknown (workout_type : string) :
  workout_type <> "SWM"%string ->
  workout_type <> "RUN"%string ->
  workout_type <> "WLK"%string ->
  trainings !! workout_type = None.
Proof.
  intros Hs Hr Hw. unfold trainings.
  rewrite !lookup_insert_ne by congruence.
  apply lookup_empty.
Qed.

Lemma trainings_lookup_known (workout_type : string) (c : class) :
  trainings !! workout_type = Some c ->
  workout_type = "SWM"%string
  \/ workout_type = "RUN"%string
  \/ workout_type = "WLK"%string.
Proof.
  intros H.
  destruct (decide (workout_type = "SWM"%string)) as [|Hs]; [tauto |].
  destruct (decide (workout_type = "RUN"%string)) as [|Hr]; [tauto |].
  destruct (decide (workout_type = "WLK"%string)) as [|Hw]; [tauto |].
  rewrite trainings_lookup_unknown in H by assumption. discriminate.
Qed.

(** The three codes call the three subclasses on the data, in order. *)
Lemma read_package_dispatch :
  (forall action duration weight length_pool count_pool : value,
      read_package "SWM" [action; duration; weight; length_pool; count_pool]
      = IO [] (Ok (Some (SwimmingObject action duration weight
                                        length_pool count_pool))))
  /\ (forall action duration weight : value,
         read_package "RUN" [action; duration; weight]
         = IO [] (Ok (Some (RunningObject action duration weight))))
  /\ (forall action duration weight height : value,
         read_package "WLK" [action; duration; weight; height]
         = IO [] (Ok (Some (SportsWalkingObject action duration weight
                                                height)))).
Proof. repeat split. Qed.

(** C7. For a code other than "SWM", "RUN" and "WLK", whatever the data,
    [read_package] raises nothing: it prints one diagnostic line and
    returns [None]; [main] on [None] prints nothing and raises nothing;
    and the loop of the script goes on with the pairs that follow, its
    output being the diagnostic line followed by theirs. *)
Theorem unknown_code_is_skipped {libm : Libm} :
  forall (workout_type : string) (data : list value)
         (rest : list (string * list value)),
    workout_type <> "SWM"%string ->
    workout_type <> "RUN"%string ->
    workout_type <> "WLK"%string ->
    let diagnostic :=
      ("KeyError: Тип тренировки " +:+ workout_type
       +:+ " не может быть обработан.")%string in
    read_package workout_type data = IO [diagnostic] (Ok None)
    /\ main None = IO [] (Ok tt)
    /\ run ((workout_type, data) :: rest)
       = IO (diagnostic :: output (run rest)) (outcome (run rest)).
Proof.
  intros workout_type data rest Hs Hr Hw diagnostic.
  assert (Hread : read_package workout_type data = IO [diagnostic] (Ok None)).
  { unfold read_package, getitem.
    rewrite trainings_lookup_unknown by assumption. reflexivity. }
  split; [exact Hread |]. split; [reflexivity |].
  cbn [run]. rewrite Hread.
  destruct (run rest) as [out res]. destruct res; reflexivity.
Qed.

Lemma unknown_code_is_skipped_witness :
  read_package "XYZ" [] =
    IO ["KeyError: Тип тренировки XYZ не может быть обработан."%string]
       (Ok None)
  /\ main None = IO [] (Ok tt)
  /\ run (("XYZ"%string, []) :: packages)
     = IO ("KeyError: Тип тренировки XYZ не может быть обработан."%string
             :: output (run packages))
          (outcome (run packages)).
Proof.
  apply (unknown_code_is_skipped "XYZ" [] packages); discriminate.
Defined.

(** ** The abstract base class *)

(** C8. Calling [get_spent_calories] on an instance of the base class
    [Training] itself, whatever its attributes, raises
    [NotImplementedError], an exception of its own kind.  The script has
    no handler for it: [main] on such an instance prints nothing and ends
    with this exception, unless the mean speed, which comes first, has
    raised its own. *)
Theorem Training_get_spent_calories_not_implemented {libm : Libm} :
  forall action duration weight : value,
    let self := TrainingObject action duration weight in
    get_spent_calories self = Raise NotImplementedError
    /\ main (Some self)
       = IO [] (Raise match get_mean_speed self with
                      | Ok _ => NotImplementedError
                      | Raise e => e
                      end)
    /\ main (Some (TrainingObject 9000%py 1%py 75%py))
       = IO [] (Raise NotImplementedError).
Proof.
  intros a d w self. split; [reflexivity |]. split; [| reflexivity].
  unfold main, show_training_info.
  change (get_spent_calories self) with (@Raise value NotImplementedError).
  destruct (get_mean_speed self) as [v | e] eqn:Es.
  - assert (Hd : exists x, get_distance self = Ok x).
    { change (get_mean_speed self)
        with (get_distance self ≫= λ x, Py.truediv x d) in Es.
      destruct (get_distance self); [eauto | discriminate]. }
    destruct Hd as [x ->]. reflexivity.
  - destruct (base_mean_speed_raises self e ltac:(discriminate) Es)
      as [[Hd | [x Hd]] He]; rewrite Hd;
      destruct He as [-> | ->]; reflexivity.
Qed.

(** ** The script *)

(** The script prints the three reports of its demonstration; the square
    of the speed of the walk is the one of the library
    [correctly_rounded]. *)
Example script_output :
  script
  = IO [ "Тип тренировки: Swimming; Длительность: 1.000 ч.; Дистанция: 0.994 км; Ср. скорость: 1.000 км/ч; Потрачено ккал: 336.000.";
         "Тип тренировки: Running; Длительность: 1.000 ч.; Дистанция: 9.750 км; Ср. скорость: 9.750 км/ч; Потрачено ккал: 699.750.";
         "Тип тренировки: SportsWalking; Длительность: 1.000 ч.; Дистанция: 5.850 км; Ср. скорость: 5.850 км/ч; Потрачено ккал: 157.500."
       ]%string
       (Ok tt).
Proof. vm_compute. reflexivity. Qed.

(** ** Agreement with the doubles of the machine

    The kernel of Rocq computes on the binary64 numbers of the processor,
    as Python does; the literals and the results of the demonstration are
    the same there. *)

#[warnings="-inexact-float"]
Example literals_on_hardware :
  PyFloat (Prim2SF 0.65) = 0.65%py
  /\ PyFloat (Prim2SF 1.38) = 1.38%py
  /\ PyFloat (Prim2SF 0.035) = 0.035%py
  /\ PyFloat (Prim2SF 0.029) = 0.029%py
  /\ PyFloat (Prim2SF 1.1) = 1.1%py.
Proof. repeat split. Qed.

#[warnings="-inexact-float"]
Example demonstration_on_hardware :
  get_spent_calories demo_running
  = Ok (PyFloat (Prim2SF
      ((18 * (15000 * 0.65 / 1000 / 1) - 20) * 75 / 1000 * 1 * 60)))
  /\ get_spent_calories demo_walking
     = Ok (PyFloat (Prim2SF
         ((0.035 * 75 + 0 * 0.029 * 75) * 1 * 60)))
  /\ get_spent_calories demo_swimming
     = Ok (PyFloat (Prim2SF ((25 * 40 / 1000 / 1 + 1.1) * 2 * 80)))
  /\ get_distance demo_swimming
     = Ok (PyFloat (Prim2SF (720 * 1.38 / 1000))).
Proof. repeat split; vm_compute; reflexivity. Qed.

(** * Further properties of the program *)

(** ** Construction *)

Lemma new_Ok (c : class) (data : list value) (self : instance) :
  new c data = Ok self <-> type self = c /\ attributes self = data.
Proof.
  split.
  - destruct c; destruct data as [|a [|d [|w [|x [|y [|z data]]]]]];
      simpl; intros [= <-]; split; reflexivity.
  - intros [<- <-]. destruct self; reflexivity.
Qed.

Lemma new_TypeError (c : class) (data : list value) :
  new c data = Raise TypeError <-> length data <> arity c.
Proof.
  destruct c; destruct data as [|a [|d [|w [|x [|y [|z data]]]]]];
    simpl; split; intros H; try reflexivity; try discriminate;
    try lia; try (exfalso; apply H; reflexivity).
Qed.

Lemma new_cases (c : class) (data : list value) :
  (exists self, new c data = Ok self) \/ new c data = Raise TypeError.
Proof.
  destruct c; destruct data as [|a [|d [|w [|x [|y [|z data]]]]]];
    simpl; eauto.
Qed.

(** X1. A class called on as many arguments as its [__init__] takes
    keeps them, in order, as the attributes of an instance of that class,
    and no other call succeeds: on any other number of arguments the call
    raises [TypeError]. *)
Theorem new_round_trip :
  forall (c : class) (data : list value),
    (forall self : instance,
        new c data = Ok self <-> type self = c /\ attributes self = data)
    /\ (new c data = Raise TypeError <-> length data <> arity c)
    /\ (length data = arity c -> exists self, new c data = Ok self).
Proof.
  intros c data. split; [intros self; apply new_Ok |].
  split; [apply new_TypeError |].
  intros Hlen. destruct (new_cases c data) as [H | H]; [exact H |].
  apply new_TypeError in H. contradiction.
Qed.

(** ** Dispatch *)

Lemma trainings_lookup (code : string) (c : class) :
  trainings !! code = Some c
  <-> (code = "SWM"%string /\ c = Swimming)
      \/ (code = "RUN"%string /\ c = Running)
      \/ (code = "WLK"%string /\ c = SportsWalking).
Proof.
  unfold trainings. split.
  - intros H.
    destruct (decide (code = "SWM"%string)) as [-> | Hs].
    { rewrite lookup_insert_eq in H. injection H as <-. auto. }
    rewrite lookup_insert_ne in H by congruence.
    destruct (decide (code = "RUN"%string)) as [-> | Hr].
    { rewrite lookup_insert_eq in H. injection H as <-. auto. }
    rewrite lookup_insert_ne in H by congruence.
    destruct (decide (code = "WLK"%string)) as [-> | Hw].
    { rewrite lookup_insert_eq in H. injection H as <-. auto. }
    rewrite lookup_insert_ne in H by congruence.
    rewrite lookup_empty in H. discriminate.
  - intros [[-> ->] | [[-> ->] | [-> ->]]]; reflexivity.
Qed.

Lemma read_package_known (code : string) (c : class) (data : list value) :
  trainings !! code = Some c ->
  read_package code data
  = IO [] (match new c data with
           | Ok self => Ok (Some self)
           | Raise e => Raise e
           end).
Proof.
  intros H. unfold read_package, getitem. rewrite H.
  destruct (new_cases c data) as [[self E] | E]; simpl; rewrite E; reflexivity.
Qed.

Lemma read_package_unknown (code : string) (data : list value) :
  trainings !! code = None ->
  read_package code data
  = IO [("KeyError: Тип тренировки " +:+ code
         +:+ " не может быть обработан.")%string] (Ok None).
Proof.
  intros H. unfold read_package, getitem. rewrite H. reflexivity.
Qed.

(** X2. [read_package] returns an instance, printing nothing, exactly
    when the code is one of the three of the table and the data are the
    attributes of the instance, of the class the table gives: "SWM" a
    [Swimming], "RUN" a [Running], "WLK" a [SportsWalking].  It never
    builds an instance of the base class. *)
Theorem read_package_instance :
  forall (code : string) (data : list value) (self : instance),
    read_package code data = IO [] (Ok (Some self))
    <-> attributes self = data
        /\ ((code = "SWM"%string /\ type self = Swimming)
            \/ (code = "RUN"%string /\ type self = Running)
            \/ (code = "WLK"%string /\ type self = SportsWalking)).
Proof.
  intros code data self. split.
  - intros H. destruct (trainings !! code) as [c |] eqn:E.
    + rewrite (read_package_known code c data E) in H.
      destruct (new c data) as [self' | e] eqn:En; [| discriminate].
      injection H as ->. apply new_Ok in En as [Ht Ha].
      split; [exact Ha |]. rewrite Ht. apply trainings_lookup, E.
    + rewrite (read_package_unknown code data E) in H. discriminate.
  - intros [Ha Hc].
    assert (E : trainings !! code = Some (type self))
      by (apply trainings_lookup; exact Hc).
    rewrite (read_package_known code _ data E).
    replace (new (type self) data) with (Ok self); [reflexivity |].
    symmetry. apply new_Ok. split; [reflexivity | exact Ha].
Qed.

(** X3. Whatever the code and the data, [read_package] does one of three
    things: it returns an instance and prints nothing; or, the code not
    being in the table, it prints the diagnostic line and returns [None];
    or, the class not taking that many arguments, it prints nothing and
    raises [TypeError].  The [KeyError] of the table never leaves it. *)
Theorem read_package_cases :
  forall (code : string) (data : list value),
    (exists self : instance,
        read_package code data = IO [] (Ok (Some self)))
    \/ (trainings !! code = None
        /\ read_package code data = IO [diagnostic code] (Ok None))
    \/ (exists c : class,
           trainings !! code = Some c /\ length data <> arity c
           /\ read_package code data = IO [] (Raise TypeError)).
Proof.
  intros code data. destruct (trainings !! code) as [c |] eqn:E.
  - rewrite (read_package_known code c data E).
    destruct (new_cases c data) as [[self ->] | H].
    + left. eauto.
    + right. right. exists c. rewrite H.
      split; [reflexivity |]. split; [| reflexivity].
      apply new_TypeError, H.
  - right. left. split; [reflexivity |].
    apply read_package_unknown, E.
Qed.

(** X4. A code of the table with data of another length than its class
    takes ends the script: [read_package] raises [TypeError], which its
    handler does not catch, [main] is not called, and the pairs that
    follow are not processed. *)
Theorem wrong_arity_ends_the_script {libm : Libm} :
  forall (code : string) (c : class) (data : list value)
         (rest : list (string * list value)),
    trainings !! code = Some c ->
    length data <> arity c ->
    read_package code data = IO [] (Raise TypeError)
    /\ run ((code, data) :: rest) = IO [] (Raise TypeError).
Proof.
  intros code c data rest Hc Hlen.
  assert (H : read_package code data = IO [] (Raise TypeError)).
  { rewrite (read_package_known code c data Hc).
    apply new_TypeError in Hlen. rewrite Hlen. reflexivity. }
  split; [exact H |]. cbn [run]. rewrite H. reflexivity.
Qed.

Lemma wrong_arity_ends_the_script_witness :
  read_package "RUN" [15000%py; 1%py] = IO [] (Raise TypeError)
  /\ run (("RUN"%string, [15000%py; 1%py]) :: packages)
     = IO [] (Raise TypeError).
Proof.
  apply (wrong_arity_ends_the_script "RUN" Running [15000%py; 1%py] packages).
  - reflexivity.
  - simpl. lia.
Defined.

(** ** The exceptions of a workout *)

Lemma raises_only_weaken {A : Type} (P Q : exn -> Prop) (r : result A) :
  (forall e, P e -> Q e) -> raises_only P r -> raises_only Q r.
Proof. destruct r; simpl; auto. Qed.

Lemma to_float_fault (v : value) :
  raises_only arithmetic_fault (Py.to_float v).
Proof.
  destruct (Py.to_float v) as [x | e] eqn:E; simpl; [exact I |].
  left. apply (to_float_raises v e E).
Qed.

Lemma float_op_fault (op : float -> float -> float) (a b : value) :
  raises_only arithmetic_fault (Py.float_op op a b).
Proof.
  unfold Py.float_op.
  pose proof (to_float_fault a) as Ha. pose proof (to_float_fault b) as Hb.
  destruct (Py.to_float a); simpl; [| exact Ha].
  destruct (Py.to_float b); simpl; [exact I | exact Hb].
Qed.

Lemma add_fault (a b : value) : raises_only arithmetic_fault (Py.add a b).
Proof. destruct a, b; try apply float_op_fault. exact I. Qed.

Lemma sub_fault (a b : value) : raises_only arithmetic_fault (Py.sub a b).
Proof. destruct a, b; try apply float_op_fault. exact I. Qed.

Lemma mul_fault (a b : value) : raises_only arithmetic_fault (Py.mul a b).
Proof. destruct a, b; try apply float_op_fault. exact I. Qed.

Lemma truediv_fault (a b : value) :
  raises_only arithmetic_fault (Py.truediv a b).
Proof.
  destruct (Py.truediv a b) as [v | e] eqn:E; simpl; [exact I |].
  apply (truediv_raises a b e E).
Qed.

Lemma floordiv_fault (a b : value) :
  raises_only arithmetic_fault (Py.floordiv a b).
Proof.
  assert (Hf : forall a b,
             raises_only arithmetic_fault
               (x ← Py.to_float a; y ← Py.to_float b;
                if Float.is_zero y then Raise ZeroDivisionError
                else mret (PyFloat (Float.floordiv x y)))).
  { clear. intros a b.
    pose proof (to_float_fault a) as Ha. pose proof (to_float_fault b) as Hb.
    destruct (Py.to_float a); simpl; [| exact Ha].
    destruct (Py.to_float b) as [y |]; simpl; [| exact Hb].
    destruct (Float.is_zero y); simpl; [right; reflexivity | exact I]. }
  destruct a as [x | x], b as [y | y]; try apply Hf.
  unfold Py.floordiv. destruct (y =? 0); simpl; [right; reflexivity | exact I].
Qed.

Lemma square_value_fault {libm : Libm} (a : value) :
  raises_only arithmetic_fault (Py.square a).
Proof.
  destruct a as [z | [s | s | | s m e]]; try exact I.
  unfold Py.square. cbv zeta.
  destruct (SFeqb _ _); [exact I |].
  destruct (pow2 _); try exact I.
  left. reflexivity.
Qed.

Lemma binop_fault (P : exn -> Prop)
  (op : value -> value -> result value) (a b : expr) :
  (forall x y, raises_only P (op x y)) ->
  raises_only P a -> raises_only P b -> raises_only P (binop op a b).
Proof.
  intros Hop Ha Hb. unfold binop.
  destruct a as [x |]; simpl; [| exact Ha].
  destruct b as [y |]; simpl; [apply Hop | exact Hb].
Qed.

Lemma square_fault {libm : Libm} (P : exn -> Prop) (a : expr) :
  (forall x, raises_only P (Py.square x)) ->
  raises_only P a -> raises_only P (square a).
Proof.
  intros Hop Ha. unfold square.
  destruct a as [x |]; simpl; [apply Hop | exact Ha].
Qed.

Create HintDb faults.

#[local] Hint Resolve add_fault sub_fault mul_fault truediv_fault
  floordiv_fault square_value_fault : faults.

(** An expression built from the operators on expressions whose faults
    are known. *)
Ltac prove_faults :=
  repeat first
    [ exact I
    | apply binop_fault; [intros; auto with faults | |]
    | apply square_fault; [intros; auto with faults |]
    | assumption ].

Lemma get_distance_fault (self : instance) :
  raises_only arithmetic_fault (get_distance self).
Proof. unfold get_distance. prove_faults. Qed.

Lemma get_mean_speed_fault (self : instance) :
  raises_only arithmetic_fault (get_mean_speed self).
Proof.
  pose proof (get_distance_fault self) as Hd.
  destruct self; cbn [get_mean_speed]; prove_faults.
Qed.

Lemma get_spent_calories_fault {libm : Libm} (self : instance) :
  raises_only (workout_fault self) (get_spent_calories self).
Proof.
  destruct self as [a d w | a d w | a d w h | a d w lp cp].
  - right. split; reflexivity.
  - apply raises_only_weaken with (P := arithmetic_fault);
      [intros e He; left; exact He |].
    pose proof (get_mean_speed_fault (RunningObject a d w)) as Hs.
    cbn [get_spent_calories]. prove_faults.
  - apply raises_only_weaken with (P := arithmetic_fault);
      [intros e He; left; exact He |].
    pose proof (get_mean_speed_fault (SportsWalkingObject a d w h)) as Hs.
    cbn [get_spent_calories]. prove_faults.
  - apply raises_only_weaken with (P := arithmetic_fault);
      [intros e He; left; exact He |].
    pose proof (get_mean_speed_fault (SwimmingObject a d w lp cp)) as Hs.
    cbn [get_spent_calories]. prove_faults.
Qed.

Lemma show_training_info_fault {libm : Libm} (self : instance) :
  raises_only (workout_fault self) (show_training_info self).
Proof.
  unfold show_training_info.
  pose proof (get_distance_fault self) as Hd.
  pose proof (get_mean_speed_fault self) as Hs.
  pose proof (get_spent_calories_fault self) as Hc.
  destruct (get_distance self); simpl; [| left; exact Hd].
  destruct (get_mean_speed self); simpl; [| left; exact Hs].
  destruct (get_spent_calories self); simpl; [exact I | exact Hc].
Qed.

Lemma f3_fault (v : value) : raises_only arithmetic_fault (Format.f3 v).
Proof.
  unfold Format.f3. pose proof (to_float_fault v) as H.
  destruct (Py.to_float v); simpl; [exact I | exact H].
Qed.

Lemma get_message_fault (self : InfoMessage.t) :
  raises_only arithmetic_fault (InfoMessage.get_message self).
Proof.
  unfold InfoMessage.get_message.
  pose proof (f3_fault (InfoMessage.duration self)) as H1.
  pose proof (f3_fault (InfoMessage.distance self)) as H2.
  pose proof (f3_fault (InfoMessage.speed self)) as H3.
  pose proof (f3_fault (InfoMessage.calories self)) as H4.
  destruct (Format.f3 (InfoMessage.duration self)); simpl; [| exact H1].
  destruct (Format.f3 (InfoMessage.distance self)); simpl; [| exact H2].
  destruct (Format.f3 (InfoMessage.speed self)); simpl; [| exact H3].
  destruct (Format.f3 (InfoMessage.calories self)); simpl; [exact I | exact H4].
Qed.

Lemma report_fault {libm : Libm} (self : instance) :
  raises_only (workout_fault self) (report self).
Proof.
  unfold report.
  pose proof (show_training_info_fault self) as Hi.
  destruct (show_training_info self) as [info |]; simpl; [| exact Hi].
  pose proof (get_message_fault info) as Hm.
  destruct (InfoMessage.get_message info); simpl; [exact I | left; exact Hm].
Qed.

Lemma workout_fault_not_caught (self : instance) (e : exn) :
  workout_fault self e -> is_AttributeError e = false.
Proof. intros [[-> | ->] | [-> _]]; reflexivity. Qed.

Lemma main_Some {libm : Libm} (self : instance) :
  main (Some self)
  = match report self with
    | Ok line => IO [line] (Ok tt)
    | Raise e => IO [] (Raise e)
    end.
Proof.
  pose proof (report_fault self) as Hf. unfold report in *. unfold main.
  destruct (show_training_info self) as [info | e];
    unfold mbind at 1 2, io_bind, lift; cbn [outcome output].
  - cbn [mbind result_bind] in *.
    destruct (InfoMessage.get_message info) as [line | e];
      cbn [outcome output] in *.
    + reflexivity.
    + unfold try_except. cbn [outcome output].
      rewrite (workout_fault_not_caught self e Hf). reflexivity.
  - cbn [mbind result_bind] in *.
    unfold try_except. cbn [outcome output].
    rewrite (workout_fault_not_caught self e Hf). reflexivity.
Qed.

(** X5. [main] on an instance either prints exactly one line, the
    message of the training info, and returns, or prints nothing and
    raises.  What it raises is a fault of the arithmetic,
    [OverflowError] or [ZeroDivisionError], or, for an instance of the
    base class only, [NotImplementedError]: the handler of
    [AttributeError] stops none of them. *)
Theorem main_prints_or_raises {libm : Libm} :
  forall self : instance,
    match report self with
    | Ok line => main (Some self) = IO [line] (Ok tt)
    | Raise e =>
        main (Some self) = IO [] (Raise e)
        /\ (e = OverflowError \/ e = ZeroDivisionError
            \/ (e = NotImplementedError /\ type self = Training))
    end.
Proof.
  intros self. rewrite main_Some.
  pose proof (report_fault self) as Hf.
  destruct (report self) as [line | e]; [reflexivity |].
  split; [reflexivity |].
  destruct Hf as [[H | H] | H]; auto.
Qed.

(** X6. [main] returns without a line and without an exception for
    [None] only: the handler of [AttributeError] serves the package whose
    code was unknown and nothing else. *)
Theorem main_silent_iff_None {libm : Libm} :
  forall training : option instance,
    main training = IO [] (Ok tt) <-> training = None.
Proof.
  intros [self |]; split; try reflexivity; try discriminate.
  rewrite main_Some. destruct (report self); discriminate.
Qed.

(** ** The loop of the script *)

Lemma io_bind_assoc {A B C : Type} (m : io A) (f : A -> io B) (g : B -> io C) :
  (m ≫= f) ≫= g = m ≫= (λ a, f a ≫= g).
Proof.
  destruct m as [o [a | e]]; unfold mbind, io_bind; cbn [outcome output];
    [| reflexivity].
  destruct (f a) as [o' [b | e]]; cbn [outcome output]; [| reflexivity].
  destruct (g b) as [o'' r]; cbn [outcome output].
  destruct r; rewrite app_assoc; reflexivity.
Qed.

Lemma io_bind_ext {A B : Type} (m : io A) (f g : A -> io B) :
  (forall a, f a = g a) -> m ≫= f = m ≫= g.
Proof.
  intros H. unfold mbind, io_bind.
  destruct (outcome m) as [a | e]; [rewrite H |]; reflexivity.
Qed.

Lemma io_bind_ret {B : Type} (k : unit -> io B) : mret tt ≫= k = k tt.
Proof.
  unfold mbind, io_bind, mret, io_ret. simpl.
  destruct (k tt) as [o []]; reflexivity.
Qed.

Lemma run_cons {libm : Libm} (package : string * list value)
  (rest : list (string * list value)) :
  run (package :: rest)
  = match package_line package with
    | Ok line => IO (line :: output (run rest)) (outcome (run rest))
    | Raise e => IO [] (Raise e)
    end.
Proof.
  destruct package as [code data]. unfold package_line. cbn [run fst snd].
  destruct (trainings !! code) as [c |] eqn:E.
  - rewrite (read_package_known code c data E).
    destruct (new c data) as [self | e]; cbn [mbind result_bind];
      [| reflexivity].
    unfold mbind at 1, io_bind at 1. cbn [outcome output app].
    rewrite main_Some.
    destruct (report self) as [line | e]; [| reflexivity].
    destruct (run rest) as [o []]; reflexivity.
  - rewrite (read_package_unknown code data E).
    destruct (run rest) as [o []]; reflexivity.
Qed.

Lemma package_line_fault {libm : Libm} (package : string * list value) :
  raises_only script_fault (package_line package).
Proof.
  destruct package as [code data]. unfold package_line. cbn [fst snd].
  destruct (trainings !! code) as [c |] eqn:E; [| exact I].
  destruct (new_cases c data) as [[self H] | H]; rewrite H;
    cbn [mbind result_bind raises_only]; [| left; reflexivity].
  pose proof (report_fault self) as Hf.
  destruct (report self) as [line | e]; [exact I |].
  apply new_Ok in H as [Ht _].
  apply trainings_lookup in E.
  destruct Hf as [[-> | ->] | [_ Hb]].
  - right. left. reflexivity.
  - right. right. reflexivity.
  - rewrite <- Ht, Hb in E.
    destruct E as [[_ E] | [[_ E] | [_ E]]]; discriminate.
Qed.

(** X7. The script prints one line for each package, in order: the
    diagnostic for a code that is not in the table, the report of the
    workout otherwise.  The first package whose class refuses the data or
    whose numbers raise ends it with that exception, the lines before it
    being printed and those after it not. *)
Theorem run_lines {libm : Libm} :
  forall pairs : list (string * list value),
    run pairs = lines_until_fault (map package_line pairs).
Proof.
  induction pairs as [| package rest IH]; [reflexivity |].
  rewrite run_cons. cbn [map lines_until_fault]. rewrite IH.
  reflexivity.
Qed.

(** X8. The script prints as many lines as there are packages when it
    ends normally, and fewer when an exception ends it.  That exception
    is [TypeError], [OverflowError] or [ZeroDivisionError]: no
    [KeyError], no [AttributeError] and no [NotImplementedError] ever
    leaves the loop. *)
Theorem run_line_count {libm : Libm} :
  forall pairs : list (string * list value),
    match outcome (run pairs) with
    | Ok _ => length (output (run pairs)) = length pairs
    | Raise e =>
        (length (output (run pairs)) < length pairs)%nat
        /\ (e = TypeError \/ e = OverflowError \/ e = ZeroDivisionError)
    end.
Proof.
  induction pairs as [| package rest IH]; [reflexivity |].
  rewrite run_cons.
  pose proof (package_line_fault package) as Hf.
  destruct (package_line package) as [line | e]; cbn [outcome output length].
  - destruct (outcome (run rest)); [lia |].
    destruct IH as [IH He]. split; [lia | exact He].
  - split; [lia | exact Hf].
Qed.

(** X9. Running the script on one list of packages followed by another
    is running it on the first and then, unless an exception has ended
    it, on the second. *)
Theorem run_app {libm : Libm} :
  forall first second : list (string * list value),
    run (first ++ second) = (run first;; run second).
Proof.
  intros first second.
  induction first as [| [code data] rest IH].
  - cbn [app run]. rewrite io_bind_ret. reflexivity.
  - cbn [app run]. rewrite IH, io_bind_assoc.
    apply io_bind_ext. intros training.
    rewrite io_bind_assoc. reflexivity.
Qed.

(** ** Operators that return a [float] *)

Lemma int_in_range_convertible (v : value) :
  int_in_range v = true -> convertible v = true.
Proof.
  intros H. unfold convertible.
  destruct (to_float_defined v H) as [x ->]. reflexivity.
Qed.

Lemma floordiv_float_l (x : float) (b : value) :
  Py.floordiv (PyFloat x) b
  = match Py.to_float b with
    | Ok y => if is_zero_number b then Raise ZeroDivisionError
              else Ok (PyFloat (Float.floordiv x y))
    | Raise e => Raise e
    end.
Proof.
  unfold Py.floordiv. cbn [Py.to_float mbind result_bind].
  destruct (Py.to_float b) as [y | e] eqn:E; cbn [mbind result_bind];
    [| destruct b; reflexivity].
  rewrite <- (to_float_is_zero b y E). destruct b; reflexivity.
Qed.

Lemma ring_float_l (op : value -> value -> result value) (x : float) (b : value) :
  ring_operator op ->
  exists f : float -> float -> float,
    op (PyFloat x) b
    = match Py.to_float b with
      | Ok y => Ok (PyFloat (f x y))
      | Raise e => Raise e
      end.
Proof.
  intros []; eexists; apply float_op_float_l.
Qed.

Lemma ring_floating_left (op : value -> value -> result value) (a b : expr) :
  ring_operator op -> floating a -> floating (binop op a b).
Proof.
  intros Hop Ha. unfold binop.
  destruct a as [[z | x] | e]; [contradiction | | exact I].
  destruct b as [y | e]; [| exact I]. cbn [mbind result_bind].
  destruct (ring_float_l op x y Hop) as [f ->].
  destruct (Py.to_float y); exact I.
Qed.

Lemma ring_float_r (op : value -> value -> result value) (a : value) (y : float) :
  ring_operator op ->
  exists f : float -> float -> float,
    op a (PyFloat y)
    = match Py.to_float a with
      | Ok x => Ok (PyFloat (f x y))
      | Raise e => Raise e
      end.
Proof.
  intros [].
  - exists Float.add. rewrite <- float_op_float_r. destruct a; reflexivity.
  - exists Float.sub. rewrite <- float_op_float_r. destruct a; reflexivity.
  - exists Float.mul. rewrite <- float_op_float_r. destruct a; reflexivity.
Qed.

(** A [float] expression combined with a number on its right. *)
Lemma ring_floating_l (op : value -> value -> result value)
  (a : expr) (b : value) :
  ring_operator op -> floating a ->
  floating (binop op a b)
  /\ returns (binop op a b) = returns a && convertible b.
Proof.
  intros Hop Ha. unfold binop, const, convertible.
  destruct a as [[z | x] | e]; [contradiction | | split; [exact I | reflexivity]].
  cbn [mbind result_bind returns andb].
  destruct (ring_float_l op x b Hop) as [f ->].
  destruct (Py.to_float b); split; (exact I || reflexivity).
Qed.

(** A number combined with a [float] expression on its right. *)
Lemma ring_floating_r (op : value -> value -> result value)
  (a : value) (b : expr) :
  ring_operator op -> floating b ->
  floating (binop op a b)
  /\ returns (binop op a b) = convertible a && returns b.
Proof.
  intros Hop Hb. unfold binop, const, convertible.
  cbn [mbind result_bind].
  destruct b as [[z | y] | e]; [contradiction | |].
  - cbn [mbind result_bind returns].
    destruct (ring_float_r op a y Hop) as [f ->].
    destruct (Py.to_float a); split; (exact I || reflexivity).
  - cbn [mbind result_bind returns].
    rewrite andb_false_r. split; [exact I | reflexivity].
Qed.

Lemma truediv_value_floating (a b : value) : floating (Py.truediv a b).
Proof.
  destruct a as [x | x]; [destruct b as [y | y] |].
  - unfold Py.truediv. destruct (y =? 0); [exact I |].
    destruct (Float.of_quotient x y); exact I.
  - change (Py.truediv (PyInt x) (PyFloat y))
      with (Py.to_float (PyInt x)
            ≫= λ x', if Float.is_zero y then Raise ZeroDivisionError
                     else Ok (PyFloat (Float.div x' y))).
    destruct (Py.to_float (PyInt x)); cbn [mbind result_bind]; [| exact I].
    destruct (Float.is_zero y); exact I.
  - rewrite truediv_float_l.
    destruct (Py.to_float b); [| exact I].
    destruct (is_zero_number b); exact I.
Qed.

Lemma truediv_floating (a b : expr) : floating (binop Py.truediv a b).
Proof.
  unfold binop. destruct a as [x |]; [| exact I].
  destruct b as [y |]; [| exact I]. cbn [mbind result_bind].
  apply truediv_value_floating.
Qed.

(** A [float] expression divided by a number. *)
Lemma truediv_floating_l (a : expr) (b : value) :
  floating a ->
  returns (binop Py.truediv a b)
  = returns a && convertible b && negb (is_zero_number b).
Proof.
  intros Ha. unfold binop, const, convertible.
  destruct a as [[z | x] | e]; [contradiction | | reflexivity].
  cbn [mbind result_bind returns andb].
  rewrite truediv_float_l.
  destruct (Py.to_float b); [| reflexivity].
  destruct (is_zero_number b); reflexivity.
Qed.

Lemma get_distance_floating (self : instance) : floating (get_distance self).
Proof. apply truediv_floating. Qed.

Lemma get_mean_speed_floating (self : instance) :
  floating (get_mean_speed self).
Proof. destruct self; apply truediv_floating. Qed.

Lemma get_distance_returns (self : instance) :
  returns (get_distance self) = convertible (action self).
Proof.
  rewrite get_distance_eq. unfold convertible.
  destruct (Py.to_float (action self)); reflexivity.
Qed.

Lemma base_mean_speed_returns (self : instance) :
  type self <> Swimming ->
  returns (get_mean_speed self)
  = convertible (action self) && convertible (duration self)
    && negb (is_zero_number (duration self)).
Proof.
  intros Hbase.
  replace (get_mean_speed self)
    with (binop Py.truediv (get_distance self) (duration self))
    by (destruct self; (reflexivity || contradiction)).
  rewrite (truediv_floating_l _ _ (get_distance_floating self)).
  rewrite get_distance_returns. reflexivity.
Qed.

Lemma ring_l_floating (op : value -> value -> result value)
  (a : expr) (b : value) :
  ring_operator op -> floating a -> floating (binop op a b).
Proof. intros Hop Ha. apply (ring_floating_l op a b Hop Ha). Qed.

Lemma ring_l_returns (op : value -> value -> result value)
  (a : expr) (b : value) :
  ring_operator op -> floating a ->
  returns (binop op a b) = returns a && convertible b.
Proof. intros Hop Ha. apply (ring_floating_l op a b Hop Ha). Qed.

Lemma ring_r_floating (op : value -> value -> result value)
  (a : value) (b : expr) :
  ring_operator op -> floating b -> floating (binop op a b).
Proof. intros Hop Hb. apply (ring_floating_r op a b Hop Hb). Qed.

Lemma ring_r_returns (op : value -> value -> result value)
  (a : value) (b : expr) :
  ring_operator op -> floating b ->
  returns (binop op a b) = convertible a && returns b.
Proof. intros Hop Hb. apply (ring_floating_r op a b Hop Hb). Qed.

Lemma binop_returns_l (op : value -> value -> result value) (a b : expr) :
  returns a = false -> returns (binop op a b) = false.
Proof. destruct a; [discriminate | reflexivity]. Qed.

Lemma binop_returns_r (op : value -> value -> result value) (a b : expr) :
  returns b = false -> returns (binop op a b) = false.
Proof. destruct a, b; (discriminate || reflexivity). Qed.

(** The value of an expression built with a [float] is a [float]. *)
Ltac prove_floating :=
  repeat first
    [ exact I
    | assumption
    | apply truediv_floating
    | apply get_distance_floating
    | apply get_mean_speed_floating
    | apply ring_l_floating; [constructor |]
    | apply ring_r_floating; [constructor |]
    | apply ring_floating_left; [constructor |] ].

(** Whether such an expression returns, in terms of its operands. *)
Ltac push_returns :=
  repeat first
    [ rewrite ring_l_returns by first [solve [constructor] | solve [prove_floating]]
    | rewrite ring_r_returns by first [solve [constructor] | solve [prove_floating]]
    | rewrite truediv_floating_l by solve [prove_floating] ].

Lemma f3_returns (v : value) : returns (Format.f3 v) = convertible v.
Proof.
  unfold Format.f3, convertible. destruct (Py.to_float v); reflexivity.
Qed.

Lemma get_message_returns (self : InfoMessage.t) :
  returns (InfoMessage.get_message self)
  = convertible (InfoMessage.duration self)
    && convertible (InfoMessage.distance self)
    && convertible (InfoMessage.speed self)
    && convertible (InfoMessage.calories self).
Proof.
  unfold InfoMessage.get_message. rewrite <- !f3_returns.
  destruct (Format.f3 (InfoMessage.duration self)); [| reflexivity].
  destruct (Format.f3 (InfoMessage.distance self)); [| reflexivity].
  destruct (Format.f3 (InfoMessage.speed self)); [| reflexivity].
  destruct (Format.f3 (InfoMessage.calories self)); reflexivity.
Qed.

Lemma Running_calories_returns {libm : Libm} (a d w : value) :
  floating (get_spent_calories (RunningObject a d w))
  /\ returns (get_spent_calories (RunningObject a d w))
     = returns (get_mean_speed (RunningObject a d w))
       && convertible w && convertible d.
Proof.
  cbn [get_spent_calories]. split; [prove_floating |]. push_returns.
  change (convertible COEFF_CALORIE_RUN_1) with true.
  change (convertible COEFF_CALORIE_RUN_2) with true.
  change (convertible M_IN_KM) with true.
  change (convertible HOURS_TO_MIN) with true.
  change (is_zero_number M_IN_KM) with false.
  cbn [negb andb]. rewrite !andb_true_r. reflexivity.
Qed.

Lemma Swimming_calories_returns {libm : Libm} (a d w lp cp : value) :
  floating (get_spent_calories (SwimmingObject a d w lp cp))
  /\ returns (get_spent_calories (SwimmingObject a d w lp cp))
     = returns (get_mean_speed (SwimmingObject a d w lp cp))
       && convertible w.
Proof.
  cbn [get_spent_calories]. split; [prove_floating |]. push_returns.
  change (convertible COEFF_CALORIE_SWM_1) with true.
  change (convertible COEFF_CALORIE_SWM_2) with true.
  rewrite !andb_true_r. reflexivity.
Qed.

(** The report exists when its three numbers and the [float] of the
    duration do, the calories being a [float]. *)
Lemma report_returns {libm : Libm} (self : instance) :
  floating (get_spent_calories self) ->
  returns (report self)
  = returns (get_distance self) && returns (get_mean_speed self)
    && returns (get_spent_calories self) && convertible (duration self).
Proof.
  intros Hc. unfold report, show_training_info.
  pose proof (get_distance_floating self) as Hd.
  pose proof (get_mean_speed_floating self) as Hs.
  destruct (get_distance self) as [[? | distance] |];
    [contradiction | | reflexivity].
  destruct (get_mean_speed self) as [[? | speed] |];
    [contradiction | | reflexivity].
  destruct (get_spent_calories self) as [[? | calories] |];
    [contradiction | | reflexivity].
  cbn [mbind result_bind mret result_ret returns andb].
  rewrite get_message_returns. cbn [InfoMessage.duration
    InfoMessage.distance InfoMessage.speed InfoMessage.calories].
  change (convertible (PyFloat distance)) with true.
  change (convertible (PyFloat speed)) with true.
  change (convertible (PyFloat calories)) with true.
  rewrite !andb_true_r. reflexivity.
Qed.

Lemma main_prints_iff_returns {libm : Libm} (self : instance) :
  (exists line, main (Some self) = IO [line] (Ok tt))
  <-> returns (report self) = true.
Proof.
  rewrite main_Some. destruct (report self) as [line | e]; cbn [returns].
  - split; [reflexivity | eauto].
  - split; [intros [line H]; discriminate | discriminate].
Qed.

(** X10. The report of a run is printed exactly when each of its three
    arguments is a [float] or an [int] that has a double, and the
    duration is not zero.  Nothing else stops it: a [float] that is an
    infinity or a NaN, a negative number, a zero count or weight all give
    a line. *)
Theorem Running_report_iff {libm : Libm} :
  forall action duration weight : value,
    (exists line : string,
        main (Some (RunningObject action duration weight))
        = IO [line] (Ok tt))
    <-> convertible action = true
        /\ convertible duration = true
        /\ convertible weight = true
        /\ is_zero_number duration = false.
Proof.
  intros a d w. rewrite main_prints_iff_returns.
  destruct (Running_calories_returns a d w) as [Hf Hr].
  rewrite (report_returns _ Hf), Hr.
  rewrite base_mean_speed_returns by discriminate.
  rewrite get_distance_returns. cbn [action duration].
  destruct (convertible a), (convertible d), (convertible w),
    (is_zero_number d); cbn; intuition discriminate.
Qed.

(** ** Swimming within the range of the doubles *)

Lemma truediv_1000_in_range (n : Z) :
  Z.abs n < 2 ^ 1023 ->
  returns (Py.truediv (PyInt n) M_IN_KM) = true.
Proof.
  intros Hn. unfold Py.truediv, M_IN_KM.
  change (1000 =? 0) with false. cbv iota.
  assert (Hb : bounded (Float.of_quotient n 1000)).
  { unfold Float.of_quotient. destruct n as [| p | p]; [exact I | |].
    - apply div_finite_bounded.
      change (Z.to_pos (Z.abs (Zpos p))) with p.
      assert (Zdigits2 (Zpos p) <= 1023) by (apply Zdigits2_le; lia).
      change (Zdigits2 (Zpos (Z.to_pos (Z.abs 1000)))) with 10. lia.
    - apply div_finite_bounded.
      change (Z.to_pos (Z.abs (Zneg p))) with p.
      assert (Zdigits2 (Zpos p) <= 1023) by (apply Zdigits2_le; lia).
      change (Zdigits2 (Zpos (Z.to_pos (Z.abs 1000)))) with 10. lia. }
  destruct (Float.of_quotient n 1000); simpl in Hb; try contradiction;
    reflexivity.
Qed.

(** The kilometres swum in the pool exist. *)
Lemma pool_returns (a d w lp cp : value) :
  numbers_in_range (SwimmingObject a d w lp cp) = true ->
  returns (lp * cp / M_IN_KM)%py = true.
Proof.
  unfold numbers_in_range. cbn [attributes forallb].
  rewrite !andb_true_iff. intros [(_ & _ & _ & Hl & Hc & _) Hp].
  apply int_in_range_convertible in Hl, Hc. unfold convertible in Hl, Hc.
  destruct lp as [l | x], cp as [c | y].
  - unfold binop, const. cbn [mbind result_bind Py.mul].
    apply truediv_1000_in_range. cbn [int_in_range] in Hp. lia.
  - rewrite truediv_floating_l
      by (apply ring_r_floating; [constructor | exact I]).
    rewrite ring_r_returns by (constructor || exact I).
    unfold convertible. rewrite Hl. reflexivity.
  - rewrite truediv_floating_l
      by (apply ring_l_floating; [constructor | exact I]).
    rewrite ring_l_returns by (constructor || exact I).
    unfold convertible. rewrite Hc. reflexivity.
  - reflexivity.
Qed.

Lemma Swimming_mean_speed_returns (a d w lp cp : value) :
  returns (get_mean_speed (SwimmingObject a d w lp cp))
  = returns (lp * cp / M_IN_KM)%py
    && convertible d && negb (is_zero_number d).
Proof.
  cbn [get_mean_speed]. rewrite truediv_floating_l by prove_floating.
  reflexivity.
Qed.

(** X11. The report of a swim is printed whenever every [int] among its
    five arguments is below [2 ^ 1023] in magnitude, as is the product of
    the length of the pool and the count of lengths swum, and the
    duration is not zero. *)
Theorem Swimming_report_in_range {libm : Libm} :
  forall action duration weight length_pool count_pool : value,
    numbers_in_range
      (SwimmingObject action duration weight length_pool count_pool) = true ->
    is_zero_number duration = false ->
    exists line : string,
      main (Some (SwimmingObject action duration weight
                                 length_pool count_pool))
      = IO [line] (Ok tt).
Proof.
  intros a d w lp cp Hr Hz. apply main_prints_iff_returns.
  destruct (Swimming_calories_returns a d w lp cp) as [Hf Hc].
  rewrite (report_returns _ Hf), Hc, Swimming_mean_speed_returns.
  rewrite get_distance_returns, (pool_returns a d w lp cp Hr), Hz.
  unfold numbers_in_range in Hr. cbn [attributes forallb] in Hr.
  rewrite !andb_true_iff in Hr. destruct Hr as [(Ha & Hd & Hw & _) _].
  cbn [action duration].
  rewrite (int_in_range_convertible a Ha), (int_in_range_convertible d Hd),
    (int_in_range_convertible w Hw).
  reflexivity.
Qed.

Lemma Swimming_report_in_range_witness :
  exists line : string, main (Some demo_swimming) = IO [line] (Ok tt).
Proof.
  apply (Swimming_report_in_range 720%py 1%py 80%py 25%py 40%py);
    reflexivity.
Defined.

(** ** Zero divisors *)

Lemma zero_convertible (v : value) :
  is_zero_number v = true -> convertible v = true.
Proof.
  destruct v as [z | x]; cbn [is_zero_number]; [| reflexivity].
  intros H. apply Z.eqb_eq in H. subst z. reflexivity.
Qed.

Lemma mean_speed_zero_duration (self : instance) :
  is_zero_number (duration self) = true ->
  returns (get_mean_speed self) = false.
Proof.
  intros Hz.
  destruct self as [a d w | a d w | a d w h | a d w lp cp];
    [rewrite base_mean_speed_returns by discriminate ..
    | rewrite Swimming_mean_speed_returns];
    cbn [duration] in *; rewrite Hz; apply andb_false_r.
Qed.

(** Without a mean speed there is no training info: the exception is
    that of the distance or of the mean speed. *)
Lemma report_without_mean_speed {libm : Libm} (self : instance) :
  returns (get_mean_speed self) = false ->
  exists e, report self = Raise e /\ arithmetic_fault e
            /\ (get_distance self = Raise e
                \/ returns (get_distance self) = true
                   /\ get_mean_speed self = Raise e).
Proof.
  intros Hs. unfold report, show_training_info.
  pose proof (get_distance_fault self) as Hfd.
  pose proof (get_mean_speed_fault self) as Hfs.
  destruct (get_distance self) as [distance | e].
  - destruct (get_mean_speed self) as [speed | e]; [discriminate |].
    exists e. cbn. auto.
  - exists e. cbn. auto.
Qed.

Lemma truediv_float_by_zero (x : float) (b : value) :
  is_zero_number b = true -> Py.truediv (PyFloat x) b = Raise ZeroDivisionError.
Proof.
  intros Hz. rewrite truediv_float_l, Hz.
  pose proof (zero_convertible b Hz) as Hc. unfold convertible in Hc.
  destruct (Py.to_float b); [reflexivity | discriminate].
Qed.

Lemma mean_speed_division_by_zero (self : instance) :
  numbers_in_range self = true ->
  is_zero_number (duration self) = true ->
  returns (get_distance self) = true
  /\ get_mean_speed self = Raise ZeroDivisionError.
Proof.
  intros Hr Hz.
  assert (Ha : convertible (action self) = true).
  { apply int_in_range_convertible.
    unfold numbers_in_range in Hr. apply andb_true_iff in Hr as [Hr _].
    destruct self; cbn [attributes forallb] in Hr;
      apply andb_true_iff in Hr as [Hr _]; exact Hr. }
  split; [rewrite get_distance_returns; exact Ha |].
  assert (Hdiv : forall p : expr,
             floating p -> returns p = true ->
             binop Py.truediv p (duration self) = Raise ZeroDivisionError).
  { intros [[z | x] | e] Hf Hp; [contradiction | | discriminate].
    apply (truediv_float_by_zero x _ Hz). }
  destruct self as [a d w | a d w | a d w h | a d w lp cp];
    cbn [get_mean_speed];
    apply Hdiv;
    try apply truediv_floating;
    try (rewrite get_distance_returns; exact Ha).
  apply (pool_returns a d w lp cp Hr).
Qed.

(** X12. A workout whose duration is zero, the [int] or a [float] zero
    of either sign, has no report: [main] prints nothing and raises.
    The exception is [ZeroDivisionError],
    unless an [int] too large for a double raised [OverflowError]
    before the division; with every [int] in range it is
    [ZeroDivisionError]. *)
Theorem zero_duration_raises {libm : Libm} :
  forall self : instance,
    is_zero_number (duration self) = true ->
    exists e : exn,
      main (Some self) = IO [] (Raise e)
      /\ (e = ZeroDivisionError \/ e = OverflowError)
      /\ (numbers_in_range self = true -> e = ZeroDivisionError).
Proof.
  intros self Hz.
  destruct (report_without_mean_speed self (mean_speed_zero_duration self Hz))
    as (e & Hrep & Hfault & Hwhere).
  exists e. rewrite main_Some, Hrep.
  split; [reflexivity |]. split; [destruct Hfault; auto |].
  intros Hr.
  destruct (mean_speed_division_by_zero self Hr Hz) as [Hd Hs].
  destruct Hwhere as [Hwhere | [_ Hwhere]]; [| congruence].
  rewrite Hwhere in Hd. discriminate.
Qed.

Lemma zero_duration_raises_witness :
  exists e : exn,
    main (Some (RunningObject 15000%py 0%py 75%py)) = IO [] (Raise e)
    /\ (e = ZeroDivisionError \/ e = OverflowError)
    /\ (numbers_in_range (RunningObject 15000%py 0%py 75%py) = true ->
        e = ZeroDivisionError).
Proof.
  apply (zero_duration_raises (RunningObject 15000%py 0%py 75%py)).
  reflexivity.
Defined.

Lemma floordiv_by_zero (a b : value) :
  is_zero_number b = true -> returns (Py.floordiv a b) = false.
Proof.
  intros Hz. destruct a as [x | x].
  - destruct b as [y | y]; cbn [is_zero_number] in Hz.
    + unfold Py.floordiv. rewrite Hz. reflexivity.
    + change (Py.floordiv (PyInt x) (PyFloat y))
        with (Py.to_float (PyInt x)
              ≫= λ x', if Float.is_zero y then Raise ZeroDivisionError
                       else Ok (PyFloat (Float.floordiv x' y))).
      rewrite Hz. destruct (Py.to_float (PyInt x)); reflexivity.
  - rewrite floordiv_float_l, Hz.
    destruct (Py.to_float b); reflexivity.
Qed.

Lemma report_without_calories {libm : Libm} (self : instance) :
  returns (get_spent_calories self) = false -> returns (report self) = false.
Proof.
  intros Hc. unfold report, show_training_info.
  destruct (get_distance self); [| reflexivity].
  destruct (get_mean_speed self); [| reflexivity].
  destruct (get_spent_calories self); [discriminate | reflexivity].
Qed.

(** X13. A walk whose height is zero has no report either: whatever the
    other arguments, the calories divide by the height, so that [main]
    prints nothing and raises [ZeroDivisionError], or the
    [OverflowError] that came before the division. *)
Theorem zero_height_raises {libm : Libm} :
  forall action duration weight height : value,
    is_zero_number height = true ->
    exists e : exn,
      main (Some (SportsWalkingObject action duration weight height))
      = IO [] (Raise e)
      /\ (e = ZeroDivisionError \/ e = OverflowError).
Proof.
  intros a d w h Hz. set (self := SportsWalkingObject a d w h).
  assert (Hc : returns (get_spent_calories self) = false).
  { subst self. cbn [get_spent_calories].
    do 2 apply binop_returns_l. apply binop_returns_r.
    do 2 apply binop_returns_l.
    unfold binop at 1, const.
    destruct (square (get_mean_speed (SportsWalkingObject a d w h)));
      [| reflexivity].
    apply (floordiv_by_zero _ h Hz). }
  apply report_without_calories in Hc.
  pose proof (report_fault self) as Hf.
  rewrite main_Some. destruct (report self) as [line | e]; [discriminate |].
  exists e. split; [reflexivity |].
  destruct Hf as [[-> | ->] | [_ Ht]]; auto. discriminate.
Qed.

Lemma zero_height_raises_witness :
  exists e : exn,
    main (Some (SportsWalkingObject 9000%py 1%py 75%py 0%py))
    = IO [] (Raise e)
    /\ (e = ZeroDivisionError \/ e = OverflowError).
Proof.
  apply (zero_height_raises 9000%py 1%py 75%py 0%py). reflexivity.
Defined.

(** ** The base class *)

(** X14. An instance of the base class never has a report: [main]
    prints nothing and raises.  The exception is [NotImplementedError]
    exactly when the distance and the mean speed, which come first,
    exist, that is when the count and the duration have doubles and the
    duration is not zero; otherwise it is the fault of the
    arithmetic. *)
Theorem Training_never_reports {libm : Libm} :
  forall action duration weight : value,
    exists e : exn,
      main (Some (TrainingObject action duration weight)) = IO [] (Raise e)
      /\ (e = NotImplementedError \/ e = OverflowError
          \/ e = ZeroDivisionError)
      /\ (e = NotImplementedError
          <-> convertible action = true /\ convertible duration = true
              /\ is_zero_number duration = false).
Proof.
  intros a d w. set (self := TrainingObject a d w).
  pose proof (base_mean_speed_returns self ltac:(discriminate)) as Hs.
  pose proof (get_distance_returns self) as Hd.
  pose proof (get_distance_fault self) as Hfd.
  pose proof (get_mean_speed_fault self) as Hfs.
  cbn [action duration self] in Hs, Hd. fold self in Hs, Hd.
  rewrite main_Some. unfold report, show_training_info.
  destruct (get_distance self) as [distance | e]; cbn [returns] in Hd.
  - destruct (get_mean_speed self) as [speed | e]; cbn [returns] in Hs.
    + exists NotImplementedError. cbn.
      split; [reflexivity |]. split; [auto |].
      split; [intros _ | reflexivity].
      rewrite <- Hd in Hs. cbn [andb] in Hs.
      destruct (convertible d), (is_zero_number d); try discriminate; auto.
    + exists e. cbn. split; [reflexivity |].
      split; [destruct Hfs; auto |].
      rewrite <- Hd in Hs. cbn [andb] in Hs.
      split.
      * intros ->. destruct Hfs; discriminate.
      * intros (_ & H1 & H2). rewrite H1, H2 in Hs. discriminate.
  - exists e. cbn. split; [reflexivity |].
    split; [destruct Hfd; auto |].
    split.
    + intros ->. destruct Hfd; discriminate.
    + intros (H1 & _). congruence.
Qed.

(** ** [int] or [float] arguments *)

Lemma same_number_is_zero (b b' : value) :
  same_number b b' -> convertible b = true ->
  is_zero_number b = is_zero_number b'.
Proof.
  unfold same_number, convertible. intros H Hc.
  destruct (Py.to_float b) as [y |] eqn:E; [| discriminate].
  rewrite <- (to_float_is_zero b y E). symmetry in H.
  rewrite <- (to_float_is_zero b' y H). reflexivity.
Qed.

Lemma ring_l_same (op : value -> value -> result value)
  (a : expr) (b b' : value) :
  ring_operator op -> floating a -> same_number b b' ->
  binop op a b = binop op a b'.
Proof.
  intros Hop Ha H. unfold binop, const.
  destruct a as [[z | x] | e]; [contradiction | | reflexivity].
  cbn [mbind result_bind].
  destruct Hop;
    [change (Py.float_op Float.add (PyFloat x) b
             = Py.float_op Float.add (PyFloat x) b')
    | change (Py.float_op Float.sub (PyFloat x) b
              = Py.float_op Float.sub (PyFloat x) b')
    | change (Py.float_op Float.mul (PyFloat x) b
              = Py.float_op Float.mul (PyFloat x) b')];
    rewrite !float_op_float_l, H; reflexivity.
Qed.

Lemma truediv_l_same (a : expr) (b b' : value) :
  floating a -> same_number b b' ->
  binop Py.truediv a b = binop Py.truediv a b'.
Proof.
  intros Ha H. unfold binop, const.
  destruct a as [[z | x] | e]; [contradiction | | reflexivity].
  cbn [mbind result_bind]. rewrite !truediv_float_l.
  pose proof (same_number_is_zero b b' H) as Hz.
  unfold convertible in Hz. rewrite <- H.
  destruct (Py.to_float b); [| reflexivity].
  rewrite Hz by reflexivity. reflexivity.
Qed.

Lemma floordiv_l_same (a : expr) (b b' : value) :
  floating a -> same_number b b' ->
  binop Py.floordiv a b = binop Py.floordiv a b'.
Proof.
  intros Ha H. unfold binop, const.
  destruct a as [[z | x] | e]; [contradiction | | reflexivity].
  cbn [mbind result_bind]. rewrite !floordiv_float_l.
  pose proof (same_number_is_zero b b' H) as Hz.
  unfold convertible in Hz. rewrite <- H.
  destruct (Py.to_float b); [| reflexivity].
  rewrite Hz by reflexivity. reflexivity.
Qed.

Lemma square_floating {libm : Libm} (a : expr) : floating a -> floating (square a).
Proof.
  intros Ha. unfold square.
  destruct a as [[z | x] | e]; [contradiction | | exact I].
  destruct x as [s | s | | s m e]; try exact I.
  cbn [mbind result_bind]. unfold Py.square. cbv zeta.
  destruct (SFeqb _ _); [exact I |].
  destruct (pow2 _); exact I.
Qed.

Lemma floordiv_l_floating (a : expr) (b : value) :
  floating a -> floating (binop Py.floordiv a b).
Proof.
  intros Ha. unfold binop, const.
  destruct a as [[z | x] | e]; [contradiction | | exact I].
  cbn [mbind result_bind]. rewrite floordiv_float_l.
  destruct (Py.to_float b); [| exact I].
  destruct (is_zero_number b); exact I.
Qed.

Lemma get_distance_same (self other : instance) :
  type self = type other -> same_number (action self) (action other) ->
  get_distance self = get_distance other.
Proof.
  intros Ht Ha. rewrite !get_distance_eq, Ht, Ha. reflexivity.
Qed.

Lemma f3_same (a b : value) : same_number a b -> Format.f3 a = Format.f3 b.
Proof. intros H. unfold Format.f3. rewrite H. reflexivity. Qed.

Lemma report_congruence {libm : Libm} (self other : instance) :
  type self = type other ->
  same_number (duration self) (duration other) ->
  get_distance self = get_distance other ->
  get_mean_speed self = get_mean_speed other ->
  get_spent_calories self = get_spent_calories other ->
  report self = report other.
Proof.
  intros Ht Hd H1 H2 H3. unfold report, show_training_info.
  rewrite H1, H2, H3, Ht.
  destruct (get_distance other); [| reflexivity].
  destruct (get_mean_speed other); [| reflexivity].
  destruct (get_spent_calories other); [| reflexivity].
  cbn [mbind result_bind mret result_ret].
  unfold InfoMessage.get_message.
  cbn [InfoMessage.duration InfoMessage.distance InfoMessage.speed
       InfoMessage.calories InfoMessage.training_type].
  rewrite (f3_same _ _ Hd). reflexivity.
Qed.

Lemma report_same {libm : Libm} (self other : instance) :
  same_workout self other -> report self = report other.
Proof.
  destruct self as [a d w | a d w | a d w h | a d w lp cp],
    other as [a' d' w' | a' d' w' | a' d' w' h' | a' d' w' lp' cp'];
    try contradiction; cbn [same_workout].
  - intros (Ha & Hd & Hw).
    assert (H1 := get_distance_same (TrainingObject a d w)
                    (TrainingObject a' d' w') eq_refl Ha).
    apply report_congruence; try assumption; try reflexivity.
    cbn [get_mean_speed duration]. rewrite H1.
    apply truediv_l_same; [prove_floating | exact Hd].
  - intros (Ha & Hd & Hw).
    assert (H1 := get_distance_same (RunningObject a d w)
                    (RunningObject a' d' w') eq_refl Ha).
    assert (H2 : get_mean_speed (RunningObject a d w)
                 = get_mean_speed (RunningObject a' d' w')).
    { cbn [get_mean_speed duration]. rewrite H1.
      apply truediv_l_same; [prove_floating | exact Hd]. }
    apply report_congruence; try assumption; try reflexivity.
    cbn [get_spent_calories]. rewrite H2.
    rewrite (ring_l_same Py.mul _ w w') by first [solve [constructor] | solve [prove_floating] | exact Hw].
    rewrite (ring_l_same Py.mul _ d d') by first [solve [constructor] | solve [prove_floating] | exact Hd].
    reflexivity.
  - intros (Ha & Hd & Hw & Hh).
    assert (H1 := get_distance_same (SportsWalkingObject a d w h)
                    (SportsWalkingObject a' d' w' h') eq_refl Ha).
    assert (H2 : get_mean_speed (SportsWalkingObject a d w h)
                 = get_mean_speed (SportsWalkingObject a' d' w' h')).
    { cbn [get_mean_speed duration]. rewrite H1.
      apply truediv_l_same; [prove_floating | exact Hd]. }
    apply report_congruence; try assumption; try reflexivity.
    cbn [get_spent_calories]. rewrite H2.
    set (speed := get_mean_speed (SportsWalkingObject a' d' w' h')).
    assert (Hs : floating (square speed))
      by (apply square_floating, get_mean_speed_floating).
    rewrite (floordiv_l_same _ h h' Hs Hh).
    assert (Hq : floating (binop Py.floordiv (square speed) h'))
      by (apply floordiv_l_floating, Hs).
    rewrite (ring_l_same Py.mul (const COEFF_CALORIE_WLK_1) w w')
      by first [solve [constructor] | exact I | exact Hw].
    rewrite (ring_l_same Py.mul
               (binop Py.mul (binop Py.floordiv (square speed) h')
                             COEFF_CALORIE_WLK_2) w w')
      by first [solve [constructor] | solve [prove_floating] | exact Hw].
    assert (Hsum : floating
                     (COEFF_CALORIE_WLK_1 * w'
                      + square speed // h' * COEFF_CALORIE_WLK_2 * w')%py)
      by (do 2 (apply ring_floating_left; [constructor |]); exact I).
    rewrite (ring_l_same Py.mul _ d d' ltac:(constructor) Hsum Hd).
    reflexivity.
  - intros (Ha & Hd & Hw & <- & <-).
    assert (H1 := get_distance_same (SwimmingObject a d w lp cp)
                    (SwimmingObject a' d' w' lp cp) eq_refl Ha).
    assert (H2 : get_mean_speed (SwimmingObject a d w lp cp)
                 = get_mean_speed (SwimmingObject a' d' w' lp cp)).
    { cbn [get_mean_speed]. apply truediv_l_same; [prove_floating | exact Hd]. }
    apply report_congruence; try assumption; try reflexivity.
    cbn [get_spent_calories]. rewrite H2.
    rewrite (ring_l_same Py.mul _ w w') by first [solve [constructor] | solve [prove_floating] | exact Hw].
    reflexivity.
Qed.

(** X15. The report does not tell an [int] argument from the [float]
    of the same value: two workouts of one class whose counts, durations,
    weights and heights have the same doubles, and whose pool numbers
    are the same, have the same report or raise the same exception, and
    [main] does the same on both. *)
Theorem report_of_same_numbers {libm : Libm} :
  forall self other : instance,
    same_workout self other ->
    report self = report other
    /\ main (Some self) = main (Some other).
Proof.
  intros self other H. apply report_same in H.
  split; [exact H |]. rewrite !main_Some, H. reflexivity.
Qed.

Lemma report_of_same_numbers_witness :
  report demo_running = report (RunningObject 15000.0%py 1.0%py 75.0%py)
  /\ main (Some demo_running)
     = main (Some (RunningObject 15000.0%py 1.0%py 75.0%py)).
Proof.
  apply (report_of_same_numbers
           demo_running (RunningObject 15000.0%py 1.0%py 75.0%py)).
  repeat split; vm_compute; reflexivity.
Defined.

(** ** The line of the report *)

Lemma get_spent_calories_floating {libm : Libm} (self : instance) :
  floating (get_spent_calories self).
Proof.
  destruct self as [a d w | a d w | a d w h | a d w lp cp];
    cbn [get_spent_calories]; prove_floating.
Qed.

(** X16. The line that [main] prints for a workout is the template
    filled with the name of the class of the instance, the [float] of
    its duration, and the distance, the mean speed and the calories its
    methods return, all four formatted by [.3f], in this order.  All
    three computed numbers are [float]s. *)
Theorem report_line {libm : Libm} :
  forall (self : instance) (line : string),
    main (Some self) = IO [line] (Ok tt) ->
    exists hours distance speed calories : float,
      Py.to_float (duration self) = Ok hours
      /\ get_distance self = Ok (PyFloat distance)
      /\ get_mean_speed self = Ok (PyFloat speed)
      /\ get_spent_calories self = Ok (PyFloat calories)
      /\ line
         = ("Тип тренировки: " +:+ __name__ (type self)
            +:+ "; Длительность: " +:+ Format.float_f3 hours
            +:+ " ч.; Дистанция: " +:+ Format.float_f3 distance
            +:+ " км; Ср. скорость: " +:+ Format.float_f3 speed
            +:+ " км/ч; Потрачено ккал: " +:+ Format.float_f3 calories
            +:+ ".")%string.
Proof.
  intros self line. rewrite main_Some.
  unfold report, show_training_info.
  pose proof (get_distance_floating self) as Hd.
  pose proof (get_mean_speed_floating self) as Hs.
  pose proof (get_spent_calories_floating self) as Hc.
  destruct (get_distance self) as [[? | distance] |];
    [contradiction | | discriminate].
  destruct (get_mean_speed self) as [[? | speed] |];
    [contradiction | | discriminate].
  destruct (get_spent_calories self) as [[? | calories] |];
    [contradiction | | discriminate].
  cbn [mbind result_bind mret result_ret].
  unfold InfoMessage.get_message, Format.f3.
  cbn [InfoMessage.duration InfoMessage.distance InfoMessage.speed
       InfoMessage.calories InfoMessage.training_type Py.to_float].
  destruct (Py.to_float (duration self)) as [hours |]; [| discriminate].
  cbn [mbind result_bind mret result_ret].
  intros [= <-]. exists hours, distance, speed, calories.
  repeat (split; [reflexivity |]). reflexivity.
Qed.

Lemma report_line_witness :
  exists hours distance speed calories : float,
    Py.to_float (duration demo_running) = Ok hours
    /\ get_distance demo_running = Ok (PyFloat distance)
    /\ get_mean_speed demo_running = Ok (PyFloat speed)
    /\ get_spent_calories demo_running = Ok (PyFloat calories)
    /\ ("Тип тренировки: Running; Длительность: 1.000 ч.; "
        +:+ "Дистанция: 9.750 км; Ср. скорость: 9.750 км/ч; "
        +:+ "Потрачено ккал: 699.750.")%string
       = ("Тип тренировки: " +:+ __name__ (type demo_running)
          +:+ "; Длительность: " +:+ Format.float_f3 hours
          +:+ " ч.; Дистанция: " +:+ Format.float_f3 distance
          +:+ " км; Ср. скорость: " +:+ Format.float_f3 speed
          +:+ " км/ч; Потрачено ккал: " +:+ Format.float_f3 calories
          +:+ ".")%string.
Proof.
  apply (report_line demo_running). vm_compute. reflexivity.
Defined.

(** ** Whole numbers in the report *)

Lemma round_half_even_comp (p q : Q) :
  (p == q)%Q -> Format.round_half_even p = Format.round_half_even q.
Proof.
  intros H. unfold Format.round_half_even.
  rewrite (Qfloor_comp p q H).
  assert (Hc : ((p - inject_Z (Qfloor q) ?= 1 # 2)
                = (q - inject_Z (Qfloor q) ?= 1 # 2))%Q)
    by (apply Qcompare_comp; [rewrite H |]; reflexivity).
  cbv zeta. rewrite Hc. reflexivity.
Qed.

Lemma round_half_even_Z (n : Z) : Format.round_half_even (inject_Z n) = n.
Proof.
  unfold Format.round_half_even. cbv zeta. rewrite Qfloor_Z.
  assert (Hc : ((inject_Z n - inject_Z n ?= 1 # 2) = Lt)%Q).
  { unfold Qcompare, Qminus, Qplus, Qopp, inject_Z. cbn [Qnum Qden].
    apply Z.compare_lt_iff. lia. }
  rewrite Hc. reflexivity.
Qed.

Lemma fixed3_whole (sign : bool) (n : Z) :
  Format.fixed3 sign (1000 * n)
  = ((if sign then "-" else "") +:+ Format.digits n +:+ ".000")%string.
Proof.
  unfold Format.fixed3.
  replace ((1000 * n) `div` 1000) with n
    by (symmetry; rewrite Z.mul_comm; apply Z.div_mul; lia).
  replace (((1000 * n) `div` 100) `mod` 10) with 0.
  2: { replace (1000 * n) with (10 * n * 100) by lia.
       rewrite Z.div_mul by lia. rewrite Z.mul_comm, Z.mod_mul; lia. }
  replace (((1000 * n) `div` 10) `mod` 10) with 0.
  2: { replace (1000 * n) with (100 * n * 10) by lia.
       rewrite Z.div_mul by lia.
       replace (100 * n) with (10 * n * 10) by lia.
       rewrite Z.mod_mul; lia. }
  replace ((1000 * n) `mod` 10) with 0.
  2: { replace (1000 * n) with (100 * n * 10) by lia.
       rewrite Z.mod_mul; lia. }
  reflexivity.
Qed.

Lemma thousandths_of_Z (z : Z) :
  Z.abs z < 2 ^ 53 ->
  Format.thousandths (Float.of_Z z) = 1000 * Z.abs z.
Proof.
  intros Hz. destruct (of_Z_exact z Hz) as [_ Hq].
  unfold Format.thousandths.
  rewrite <- (round_half_even_Z (1000 * Z.abs z)).
  apply round_half_even_comp.
  rewrite Hq, inject_Z_mult. reflexivity.
Qed.

(** X17. An [int] below [2 ^ 53] in magnitude is printed by [.3f] as its
    decimal digits followed by [.000], with a minus sign when it is
    negative: so is the duration of a workout given in whole hours. *)
Theorem f3_whole_number :
  forall z : Z,
    Z.abs z < 2 ^ 53 ->
    Format.f3 (PyInt z)
    = Ok ((if (z <? 0)%Z then "-" else "")
          +:+ Format.digits (Z.abs z) +:+ ".000")%string.
Proof.
  intros z Hz. unfold Format.f3, Py.to_float.
  destruct (of_Z_exact z Hz) as [Hfin _].
  pose proof (of_Z_shape z) as (_ & Hsign & _).
  pose proof (thousandths_of_Z z Hz) as Ht.
  cbv zeta in Hsign.
  destruct (Float.of_Z z) as [s | s | | s m e] eqn:E; try discriminate;
    cbn [mbind result_bind mret result_ret Format.float_f3];
    rewrite Ht, Hsign, fixed3_whole; reflexivity.
Qed.

Lemma f3_whole_number_witness :
  Format.f3 (PyInt 15000) = Ok "15000.000"%string.
Proof.
  apply (f3_whole_number 15000). reflexivity.
Defined.

(** ** The report of a walk *)

Lemma ring_both_returns (op : value -> value -> result value) (a b : expr) :
  ring_operator op -> floating a -> floating b ->
  returns (binop op a b) = returns a && returns b.
Proof.
  intros Hop Ha Hb. unfold binop.
  destruct a as [[z | x] | e]; [contradiction | | reflexivity].
  destruct b as [[z | y] | e]; [contradiction | | reflexivity].
  cbn [mbind result_bind].
  destruct (ring_float_l op x (PyFloat y) Hop) as [f ->]. reflexivity.
Qed.

Lemma floordiv_floating_l (a : expr) (b : value) :
  floating a ->
  returns (binop Py.floordiv a b)
  = returns a && convertible b && negb (is_zero_number b).
Proof.
  intros Ha. unfold binop, const, convertible.
  destruct a as [[z | x] | e]; [contradiction | | reflexivity].
  cbn [mbind result_bind returns andb].
  rewrite floordiv_float_l.
  destruct (Py.to_float b); [| reflexivity].
  destruct (is_zero_number b); reflexivity.
Qed.

Lemma square_returns {libm : Libm} (x : float) :
  returns (square (PyFloat x)) = negb (square_overflows x).
Proof.
  destruct x as [s | s | | s m e]; try reflexivity.
  unfold square, const, square_overflows, Py.square.
  cbn [mbind result_bind]. cbv zeta.
  destruct (SFeqb _ _); [reflexivity |].
  destruct (pow2 _); reflexivity.
Qed.

Lemma SportsWalking_calories_returns {libm : Libm} (a d w h : value) :
  returns (get_spent_calories (SportsWalkingObject a d w h))
  = convertible w
    && returns (square (get_mean_speed (SportsWalkingObject a d w h)))
    && convertible h && negb (is_zero_number h) && convertible d.
Proof.
  cbn [get_spent_calories].
  set (speed := get_mean_speed (SportsWalkingObject a d w h)).
  assert (Hs : floating (square speed))
    by (apply square_floating, get_mean_speed_floating).
  assert (Hq : floating (binop Py.floordiv (square speed) h))
    by (apply floordiv_l_floating, Hs).
  assert (Ha : floating (COEFF_CALORIE_WLK_1 * w)%py)
    by (apply ring_l_floating; [constructor | exact I]).
  assert (Hb : floating (square speed // h * COEFF_CALORIE_WLK_2 * w)%py)
    by (do 2 (apply ring_l_floating; [constructor |]); exact Hq).
  assert (Hsum : floating
                   (COEFF_CALORIE_WLK_1 * w
                    + square speed // h * COEFF_CALORIE_WLK_2 * w)%py)
    by (apply ring_floating_left; [constructor | exact Ha]).
  rewrite (ring_l_returns Py.mul _ HOURS_TO_MIN)
    by first [solve [constructor]
             | apply ring_l_floating; [constructor | exact Hsum]].
  rewrite (ring_l_returns Py.mul _ d ltac:(constructor) Hsum).
  rewrite (ring_both_returns Py.add _ _ ltac:(constructor) Ha Hb).
  rewrite (ring_l_returns Py.mul (const COEFF_CALORIE_WLK_1) w)
    by first [solve [constructor] | exact I].
  rewrite (ring_l_returns Py.mul _ w)
    by first [solve [constructor]
             | apply ring_l_floating; [constructor | exact Hq]].
  rewrite (ring_l_returns Py.mul _ COEFF_CALORIE_WLK_2 ltac:(constructor) Hq).
  rewrite (floordiv_floating_l _ h Hs).
  change (convertible COEFF_CALORIE_WLK_2) with true.
  change (convertible HOURS_TO_MIN) with true.
  change (returns (const COEFF_CALORIE_WLK_1)) with true.
  destruct (convertible w), (returns (square speed)), (convertible h),
    (is_zero_number h), (convertible d); reflexivity.
Qed.

(** X18. The report of a walk is printed exactly when each of its four
    arguments has a double, neither the duration nor the height is
    zero, and the square of the mean speed is within the doubles. *)
Theorem SportsWalking_report_iff {libm : Libm} :
  forall action duration weight height : value,
    let self := SportsWalkingObject action duration weight height in
    (exists line : string, main (Some self) = IO [line] (Ok tt))
    <-> convertible action = true
        /\ convertible duration = true
        /\ is_zero_number duration = false
        /\ convertible weight = true
        /\ convertible height = true
        /\ is_zero_number height = false
        /\ (forall speed : float,
               get_mean_speed self = Ok (PyFloat speed) ->
               square_overflows speed = false).
Proof.
  intros a d w h self. rewrite main_prints_iff_returns.
  rewrite (report_returns _ (get_spent_calories_floating self)).
  subst self. rewrite SportsWalking_calories_returns.
  rewrite base_mean_speed_returns by discriminate.
  rewrite get_distance_returns. cbn [action duration].
  set (self := SportsWalkingObject a d w h).
  pose proof (get_mean_speed_floating self) as Hf.
  pose proof (base_mean_speed_returns self ltac:(discriminate)) as Hs.
  cbn [action duration self] in Hs. fold self in Hs.
  destruct (get_mean_speed self) as [[z | speed] | e];
    [contradiction | |]; cbn [returns] in Hs.
  - rewrite square_returns.
    assert (Hq : (forall speed' : float,
                     Ok (PyFloat speed) = Ok (PyFloat speed') ->
                     square_overflows speed' = false)
                 <-> square_overflows speed = false).
    { split; [intros H; apply H; reflexivity |].
      intros H speed' [= <-]. exact H. }
    rewrite Hq.
    destruct (convertible a), (convertible d), (is_zero_number d),
      (convertible w), (convertible h), (is_zero_number h),
      (square_overflows speed); cbn in *; try discriminate Hs;
      intuition discriminate.
  - assert (Hq : convertible a = true /\ convertible d = true
                 /\ is_zero_number d = false -> False).
    { intros (Ha & Hd & Hzd). rewrite Ha, Hd, Hzd in Hs. discriminate. }
    rewrite <- Hs. cbn [andb]. rewrite andb_false_r.
    split; [discriminate |]. intros (Ha & Hd & Hzd & _). tauto.
Qed.

(** ** A run of no steps *)

Lemma mul_sign (x y : float) :
  x <> S754_nan -> Float.is_finite y = true -> Float.is_zero y = false ->
  Float.mul x y <> S754_nan
  /\ Float.sign (Float.mul x y) = xorb (Float.sign x) (Float.sign y).
Proof.
  intros Hx Hy Hz.
  destruct x as [sx | sx | | sx mx ex]; [| | congruence |].
  - destruct y; try discriminate. split; [discriminate | reflexivity].
  - destruct y; try discriminate. split; [discriminate | reflexivity].
  - apply (mul_shape (S754_finite sx mx ex) y eq_refl Hy).
Qed.

Lemma negative_mul (r : expr) (v : value) :
  negative r -> positive_finite v = true -> negative (binop Py.mul r v).
Proof.
  intros (x & -> & Hx & Hs) Hv.
  destruct (positive_finite_float v Hv) as (y & Ey & Hfin & Hnz & Hsy).
  unfold binop, const. cbn [mbind result_bind].
  change (Py.mul (PyFloat x) v) with (Py.float_op Float.mul (PyFloat x) v).
  rewrite float_op_float_l, Ey.
  destruct (mul_sign x y Hx Hfin Hnz) as [H1 H2].
  exists (Float.mul x y). split; [reflexivity |]. split; [exact H1 |].
  rewrite H2, Hs, Hsy. reflexivity.
Qed.

Lemma negative_truediv (r : expr) (v : value) :
  negative r -> positive_finite v = true -> negative (binop Py.truediv r v).
Proof.
  intros (x & -> & Hx & Hs) Hv.
  destruct (positive_finite_float v Hv) as (y & Ey & Hfin & Hnz & Hsy).
  unfold binop, const. cbn [mbind result_bind].
  rewrite truediv_float_l, Ey, <- (to_float_is_zero v y Ey), Hnz.
  destruct (div_shape x y Hx Hfin Hnz) as [H1 H2].
  exists (Float.div x y). split; [reflexivity |]. split; [exact H1 |].
  rewrite H2, Hs, Hsy. reflexivity.
Qed.

Lemma zero_float (v : value) :
  is_zero_number v = true -> exists s, Py.to_float v = Ok (S754_zero s).
Proof.
  destruct v as [z | x]; cbn [is_zero_number]; intros H.
  - apply Z.eqb_eq in H. subst z. exists false. reflexivity.
  - destruct x; try discriminate. eauto.
Qed.

(** A run of no steps has a mean speed of zero. *)
Lemma Running_zero_mean_speed (a d w : value) :
  is_zero_number a = true -> positive_finite d = true ->
  exists s, get_mean_speed (RunningObject a d w) = Ok (PyFloat (S754_zero s)).
Proof.
  intros Ha Hd.
  destruct (zero_float a Ha) as [s Ea].
  destruct (positive_finite_float d Hd) as (y & Ey & Hfin & Hnz & Hsy).
  rewrite base_mean_speed_eq by discriminate.
  rewrite get_distance_eq. cbn [action type duration]. rewrite Ea.
  cbn [mbind result_bind].
  rewrite truediv_float_l, Ey, <- (to_float_is_zero d y Ey), Hnz.
  destruct y as [| | | sy my ey]; try discriminate.
  exists (xorb s sy). destruct s; reflexivity.
Qed.

(** X19. A run of no steps burns a negative number of calories: for
    every positive, finite duration and weight the calories of a run
    whose count is zero are a [float] with the sign bit set, so never
    above zero.  The formula takes 20 from 18 times the mean speed
    whatever the speed. *)
Theorem Running_no_steps_negative_calories {libm : Libm} :
  forall action duration weight : value,
    is_zero_number action = true ->
    positive_finite duration = true ->
    positive_finite weight = true ->
    exists calories : float,
      get_spent_calories (RunningObject action duration weight)
      = Ok (PyFloat calories)
      /\ calories <> S754_nan
      /\ Float.sign calories = true
      /\ Py.pos (PyFloat calories) = false.
Proof.
  intros a d w Ha Hd Hw.
  assert (H : negative (get_spent_calories (RunningObject a d w))).
  { cbn [get_spent_calories].
    apply negative_mul; [| reflexivity].
    apply negative_mul; [| exact Hd].
    apply negative_truediv; [| reflexivity].
    apply negative_mul; [| exact Hw].
    destruct (Running_zero_mean_speed a d w Ha Hd) as [s ->].
    destruct s; eexists; (split; [vm_compute; reflexivity |]);
      split; (discriminate || reflexivity). }
  destruct H as (c & Hc & Hnan & Hs).
  exists c. repeat (split; [assumption |]).
  destruct c as [s | s | | s m e]; cbn in Hs; subst; reflexivity.
Qed.

Lemma Running_no_steps_negative_calories_witness :
  exists calories : float,
    get_spent_calories (RunningObject 0%py 1%py 75%py) = Ok (PyFloat calories)
    /\ calories <> S754_nan
    /\ Float.sign calories = true
    /\ Py.pos (PyFloat calories) = false.
Proof.
  apply (Running_no_steps_negative_calories 0%py 1%py 75%py); reflexivity.
Defined.

(** ** The script, whatever the C library *)

Lemma package_line_known {libm : Libm} (code : string) (c : class)
  (data : list value) (self : instance) :
  trainings !! code = Some c -> new c data = Ok self ->
  package_line (code, data) = report self.
Proof.
  intros Hc Hn. unfold package_line. cbn [fst snd].
  rewrite Hc, Hn. reflexivity.
Qed.

(** The output of the script depends on the C library through one number,
    the square of 5.85: whatever finite double below 180 and not
    negative the library returns for it, the script prints the same
    three lines. *)
Lemma script_output_whatever_the_library {libm : Libm} (r : float) :
  square (get_mean_speed demo_walking) = Ok (PyFloat r) ->
  Float.is_finite r = true -> Float.sign r = false ->
  (Float.to_Q r < 180)%Q ->
  script
  = IO [ "Тип тренировки: Swimming; Длительность: 1.000 ч.; Дистанция: 0.994 км; Ср. скорость: 1.000 км/ч; Потрачено ккал: 336.000.";
         "Тип тренировки: Running; Длительность: 1.000 ч.; Дистанция: 9.750 км; Ср. скорость: 9.750 км/ч; Потрачено ккал: 699.750.";
         "Тип тренировки: SportsWalking; Длительность: 1.000 ч.; Дистанция: 5.850 км; Ср. скорость: 5.850 км/ч; Потрачено ккал: 157.500."
       ]%string
       (Ok tt).
Proof.
  intros Hr Hf Hs Hlt.
  destruct (walking_demo_whatever_the_square r Hf Hs Hlt) as [_ Hc].
  assert (Hc' : get_spent_calories demo_walking
                = Ok 157.50000000000003%py).
  { change (get_spent_calories demo_walking)
      with ((0.035 * 75
             + (square (get_mean_speed demo_walking) // 180)
               * 0.029 * 75) * 1 * 60)%py.
    rewrite Hr. exact Hc. }
  assert (Hw : report demo_walking
               = Ok "Тип тренировки: SportsWalking; Длительность: 1.000 ч.; Дистанция: 5.850 км; Ср. скорость: 5.850 км/ч; Потрачено ккал: 157.500."%string).
  { unfold report, show_training_info. rewrite Hc'.
    vm_compute. reflexivity. }
  assert (Hrun : report demo_running
               = Ok "Тип тренировки: Running; Длительность: 1.000 ч.; Дистанция: 9.750 км; Ср. скорость: 9.750 км/ч; Потрачено ккал: 699.750."%string)
    by (vm_compute; reflexivity).
  assert (Hswm : report demo_swimming
               = Ok "Тип тренировки: Swimming; Длительность: 1.000 ч.; Дистанция: 0.994 км; Ср. скорость: 1.000 км/ч; Потрачено ккал: 336.000."%string)
    by (vm_compute; reflexivity).
  unfold script, packages. rewrite !run_cons.
  rewrite (package_line_known "SWM" Swimming _ demo_swimming)
    by (vm_compute; reflexivity).
  rewrite (package_line_known "RUN" Running _ demo_running)
    by (vm_compute; reflexivity).
  rewrite (package_line_known "WLK" SportsWalking _ demo_walking)
    by (vm_compute; reflexivity).
  rewrite Hswm, Hrun, Hw. reflexivity.
Qed.
